(** * FreeType WPM: the typing-session state machine of [src/App.tsx]

    The component [TypingSpeedApp] keeps its state in React state cells
    ([useState]) and changes it from event handlers and effects.  Every
    handler reads the cells of the render it was created in and queues
    updates; the model below is the resulting transition on the record of
    all cells: one function per handler, taking the reading of [Date.now()]
    as an argument.

    Integer quantities (timestamps, millisecond totals, counters) are exact
    integers.  The derived ratios are JavaScript numbers, modelled as exact
    rationals extended with the two infinities and NaN: the rounding of
    binary64 arithmetic and the sign of zero are not modelled. *)

From Stdlib Require Import ZArith NArith QArith Qminmax Qround Qabs List Bool String Ascii Lia.
Import ListNotations.
Local Open Scope Z_scope.

(** ** JavaScript strings: sequences of UTF-16 code units *)

Definition code_unit := N.
Definition jsstring := list code_unit.

(** An ASCII literal of the source as a JavaScript string. *)
Definition js (s : string) : jsstring := map N_of_ascii (list_ascii_of_string s).

Fixpoint jsstring_eqb (a b : jsstring) : bool :=
  match a, b with
  | [], [] => true
  | x :: a', y :: b' => N.eqb x y && jsstring_eqb a' b'
  | _, _ => false
  end.

(** [s.length] *)
Definition str_length (s : jsstring) : Z := Z.of_nat (List.length s).

(** ** The state cells of the component *)

Inductive Theme := dark | light.

Record State := mkState {
  theme : Theme;
  text : jsstring;
  isRunning : bool;
  startedAt : option Z;
  lastStart : option Z;
  accumulatedMs : Z;
  now : Z;
  totalKeystrokes : N;
  backspaces : N;
  timerMinutes : Z
}.

(** The state at mount; [t0] is the reading of [Date.now()] that
    initialises the cell [now]. *)
Definition initialState (t0 : Z) : State :=
  mkState dark [] false None None 0 t0 0%N 0%N 0.

Definition setTheme (v : Theme) (s : State) : State :=
  mkState v (text s) (isRunning s) (startedAt s) (lastStart s) (accumulatedMs s)
          (now s) (totalKeystrokes s) (backspaces s) (timerMinutes s).
Definition setText (v : jsstring) (s : State) : State :=
  mkState (theme s) v (isRunning s) (startedAt s) (lastStart s) (accumulatedMs s)
          (now s) (totalKeystrokes s) (backspaces s) (timerMinutes s).
Definition setIsRunning (v : bool) (s : State) : State :=
  mkState (theme s) (text s) v (startedAt s) (lastStart s) (accumulatedMs s)
          (now s) (totalKeystrokes s) (backspaces s) (timerMinutes s).
Definition setStartedAt (v : option Z) (s : State) : State :=
  mkState (theme s) (text s) (isRunning s) v (lastStart s) (accumulatedMs s)
          (now s) (totalKeystrokes s) (backspaces s) (timerMinutes s).
Definition setLastStart (v : option Z) (s : State) : State :=
  mkState (theme s) (text s) (isRunning s) (startedAt s) v (accumulatedMs s)
          (now s) (totalKeystrokes s) (backspaces s) (timerMinutes s).
Definition setAccumulatedMs (v : Z) (s : State) : State :=
  mkState (theme s) (text s) (isRunning s) (startedAt s) (lastStart s) v
          (now s) (totalKeystrokes s) (backspaces s) (timerMinutes s).
Definition setNow (v : Z) (s : State) : State :=
  mkState (theme s) (text s) (isRunning s) (startedAt s) (lastStart s) (accumulatedMs s)
          v (totalKeystrokes s) (backspaces s) (timerMinutes s).
Definition setTotalKeystrokes (v : N) (s : State) : State :=
  mkState (theme s) (text s) (isRunning s) (startedAt s) (lastStart s) (accumulatedMs s)
          (now s) v (backspaces s) (timerMinutes s).
Definition setBackspaces (v : N) (s : State) : State :=
  mkState (theme s) (text s) (isRunning s) (startedAt s) (lastStart s) (accumulatedMs s)
          (now s) (totalKeystrokes s) v (timerMinutes s).
Definition setTimerMinutes (v : Z) (s : State) : State :=
  mkState (theme s) (text s) (isRunning s) (startedAt s) (lastStart s) (accumulatedMs s)
          (now s) (totalKeystrokes s) (backspaces s) v.

(** The updater forms [setX((x) => f x)]. *)
Definition updAccumulatedMs (f : Z -> Z) (s : State) : State :=
  setAccumulatedMs (f (accumulatedMs s)) s.
Definition updTotalKeystrokes (f : N -> N) (s : State) : State :=
  setTotalKeystrokes (f (totalKeystrokes s)) s.
Definition updBackspaces (f : N -> N) (s : State) : State :=
  setBackspaces (f (backspaces s)) s.

(** [x == null] on a cell of type [number | null]. *)
Definition is_null (x : option Z) : bool :=
  match x with None => true | Some _ => false end.

(** Truthiness of a cell of type [number | null]: [null] and [0] are falsy. *)
Definition truthy (x : option Z) : bool :=
  match x with None => false | Some t => negb (t =? 0) end.

(** The number read from a cell in a subtraction; only used under [truthy]. *)
Definition num_of (x : option Z) : Z :=
  match x with None => 0 | Some t => t end.

(** ** Derived values of a render *)

Definition timerEnabled (s : State) : bool := 0 <? timerMinutes s.
Definition timerMs (s : State) : Z := timerMinutes s * 60000.

Definition activeElapsedMs (s : State) : Z :=
  let runningMs :=
    if isRunning s && truthy (lastStart s) then now s - num_of (lastStart s) else 0 in
  accumulatedMs s + runningMs.

(** ** Handlers and effects *)

(** The callback of the 100 ms interval, which is installed only while
    [isRunning]. *)
Definition tick (ts : Z) (s : State) : State :=
  if isRunning s then setNow ts s else s.

(** The effect "Stop automatically when timer elapses". *)
Definition timerExpiryEffect (s : State) : State :=
  if negb (timerEnabled s) then s
  else if negb (isRunning s) then s
  else if (timerMs s <=? activeElapsedMs s) && (0 <? timerMs s)
       then setLastStart None (setIsRunning false s)
       else s.

Definition startIfNeeded (ts : Z) (s : State) : State :=
  let s1 := if is_null (startedAt s) then setStartedAt (Some ts) s else s in
  if negb (isRunning s)
  then setLastStart (Some ts) (setIsRunning true s1)
  else s1.

Definition handleChange (ts : Z) (value : jsstring) (s : State) : State :=
  let s1 := if 0 <? str_length value then startIfNeeded ts s else s in
  setText value s1.

Definition isPrintable (key : jsstring) : bool :=
  (str_length key =? 1) || jsstring_eqb key (js "Enter") || jsstring_eqb key (js "Tab")
  || jsstring_eqb key (js " ") || jsstring_eqb key (js "Spacebar").

Definition handleKeyDown (key : jsstring) (s : State) : State :=
  let s1 := if isPrintable key then updTotalKeystrokes (fun k => (k + 1)%N) s else s in
  if jsstring_eqb key (js "Backspace")
  then updTotalKeystrokes (fun k => (k + 1)%N) (updBackspaces (fun b => (b + 1)%N) s1)
  else s1.

Definition pauseResume (ts : Z) (s : State) : State :=
  if isRunning s then
    let s1 := if truthy (lastStart s)
              then updAccumulatedMs (fun ms => ms + (ts - num_of (lastStart s))) s
              else s in
    setLastStart None (setIsRunning false s1)
  else
    let s1 := setLastStart (Some ts) (setIsRunning true s) in
    if is_null (startedAt s) then setStartedAt (Some ts) s1 else s1.

Definition resetAll (ts : Z) (s : State) : State :=
  setBackspaces 0%N
   (setTotalKeystrokes 0%N
     (setNow ts
       (setAccumulatedMs 0
         (setLastStart None
           (setStartedAt None
             (setIsRunning false
               (setText [] s))))))).

(** ** The operations under the names the specification uses

    [start] is [startIfNeeded], [toggleRunning] is [pauseResume], [reset] is
    [resetAll], [onTextChanged] is [handleChange] and [onKeyEvent] is
    [handleKeyDown].  The source has no separate pause handler: [pause] is
    the running branch of [pauseResume], and nothing when already paused.
    [checkTimerExpiry now] is one firing of the interval followed by the
    expiry effect, and [getActiveElapsedMs now] is [activeElapsedMs] read
    with the cell [now] at that time. *)

Definition pause (ts : Z) (s : State) : State :=
  if isRunning s then pauseResume ts s else s.

Definition checkTimerExpiry (ts : Z) (s : State) : State :=
  timerExpiryEffect (tick ts s).

Definition getActiveElapsedMs (ts : Z) (s : State) : Z :=
  activeElapsedMs (setNow ts s).

Inductive Op :=
| OnTextChanged (ts : Z) (value : jsstring)
| OnKeyEvent (key : jsstring)
| Start (ts : Z)
| Pause (ts : Z)
| ToggleRunning (ts : Z)
| Reset (ts : Z)
| SetTimerMinutes (n : Z)
| SetTheme (t : Theme)
| CheckTimerExpiry (ts : Z).

Definition apply_op (o : Op) (s : State) : State :=
  match o with
  | OnTextChanged ts v => handleChange ts v s
  | OnKeyEvent k => handleKeyDown k s
  | Start ts => startIfNeeded ts s
  | Pause ts => pause ts s
  | ToggleRunning ts => pauseResume ts s
  | Reset ts => resetAll ts s
  | SetTimerMinutes n => setTimerMinutes n s
  | SetTheme t => setTheme t s
  | CheckTimerExpiry ts => checkTimerExpiry ts s
  end.

(** The state after a sequence of operations, first operation first. *)
Definition run (ops : list Op) (s : State) : State :=
  fold_left (fun st o => apply_op o st) ops s.

(** ** JavaScript numbers

    A number is an exact rational, an infinity or NaN.  Division and
    multiplication follow IEEE 754 on the special values (a zero divisor
    gives an infinity or NaN); zero has no sign here and is read as
    positive, and no operation rounds. *)

Module JS.

Inductive number := Fin (q : Q) | PosInf | NegInf | NaN.

Definition num (z : Z) : number := Fin (inject_Z z).

(** Equality of the values two numbers denote. *)
Definition num_eq (a b : number) : Prop :=
  match a, b with
  | Fin p, Fin q => (p == q)%Q
  | PosInf, PosInf | NegInf, NegInf | NaN, NaN => True
  | _, _ => False
  end.

Definition Qis_zero (q : Q) : bool := Qnum q =? 0.
Definition Qis_neg (q : Q) : bool := Qnum q <? 0.
Definition Qlt_bool (p q : Q) : bool := negb (Qle_bool q p).

Definition inf_of_sign (negative : bool) : number :=
  if negative then NegInf else PosInf.

(** [Some true]: negative, [Some false]: positive, [None]: zero or NaN. *)
Definition sign (x : number) : option bool :=
  match x with
  | Fin q => if Qis_zero q then None else Some (Qis_neg q)
  | PosInf => Some false
  | NegInf => Some true
  | NaN => None
  end.

Definition mul (a b : number) : number :=
  match a, b with
  | NaN, _ | _, NaN => NaN
  | Fin p, Fin q => Fin (p * q)
  | _, _ =>
      match sign a, sign b with
      | Some x, Some y => inf_of_sign (xorb x y)
      | _, _ => NaN
      end
  end.

Definition div (a b : number) : number :=
  match a, b with
  | NaN, _ | _, NaN => NaN
  | Fin p, Fin q =>
      if Qis_zero q
      then match sign a with Some x => inf_of_sign x | None => NaN end
      else Fin (p / q)
  | Fin _, _ => Fin 0
  | PosInf, Fin q => inf_of_sign (Qis_neg q)
  | NegInf, Fin q => inf_of_sign (negb (Qis_neg q))
  | _, _ => NaN
  end.

(** [a < b]; false as soon as one side is NaN. *)
Definition lt (a b : number) : bool :=
  match a, b with
  | NaN, _ | _, NaN => false
  | Fin p, Fin q => Qlt_bool p q
  | PosInf, _ => false
  | _, NegInf => false
  | NegInf, _ => true
  | Fin _, PosInf => true
  end.

(** [a > b] *)
Definition gt (a b : number) : bool := lt b a.

Definition isNaN (a : number) : bool :=
  match a with NaN => true | _ => false end.

(** [Number.isFinite] *)
Definition isFinite (a : number) : bool :=
  match a with Fin _ => true | _ => false end.

(** [Math.max] and [Math.min] of two arguments. *)
Definition Math_max (a b : number) : number :=
  if isNaN a || isNaN b then NaN else if lt a b then b else a.
Definition Math_min (a b : number) : number :=
  if isNaN a || isNaN b then NaN else if lt b a then b else a.

(** [Math.round]: the nearest integer, a tie going up. *)
Definition Math_round (a : number) : number :=
  match a with
  | Fin q => num (Qfloor (q + (1 # 2)))
  | _ => a
  end.

(** The integer [n] nearest to [100 * q], a tie going away from zero:
    the digits [q.toFixed(2)] prints. *)
Definition centi (q : Q) : Z :=
  if Qis_neg q then - Qfloor (- q * 100 + (1 # 2)) else Qfloor (q * 100 + (1 # 2)).

(** [Number(a.toFixed(2))].  From 10^21 on [toFixed] prints the number
    itself, as it does for the infinities and NaN. *)
Definition toFixed2 (a : number) : number :=
  match a with
  | Fin q =>
      if Qle_bool (inject_Z (10 ^ 21)) (Qabs q) then a
      else Fin (inject_Z (centi q) / 100)
  | _ => a
  end.

Definition digit (k : Z) : code_unit := (48 + Z.to_N k)%N.

(** The decimal digits of a natural number, by repeated division. *)
Fixpoint digits_fuel (fuel : nat) (n : Z) (acc : jsstring) : jsstring :=
  match fuel with
  | O => acc
  | S f =>
      let acc' := digit (n mod 10) :: acc in
      if n / 10 =? 0 then acc' else digits_fuel f (n / 10) acc'
  end.

Definition digits (n : Z) : jsstring :=
  digits_fuel (S (Z.to_nat (Z.log2 n))) n [].

(** The digits of [r / d] after the point, for [0 <= r < d]. *)
Fixpoint frac_digits (fuel : nat) (r d : Z) : jsstring :=
  match fuel with
  | O => []
  | S f =>
      if r =? 0 then []
      else digit (r * 10 / d) :: frac_digits f (r * 10 mod d) d
  end.

(** [String(a)] in positional notation: exact for every number with at most
    twenty digits after the point, which covers the integers and the
    results of [toFixed2]; the exponent notation that JavaScript switches to
    from 10^21 on (and below 10^-6) is not modelled. *)
Definition toString (a : number) : jsstring :=
  match a with
  | NaN => js "NaN"
  | PosInf => js "Infinity"
  | NegInf => js "-Infinity"
  | Fin q =>
      let n := Z.abs (Qnum q) in
      let d := Z.pos (Qden q) in
      (if Qis_neg q then js "-" else [])
        ++ digits (n / d)
        ++ (if n mod d =? 0 then [] else js "." ++ frac_digits 20 (n mod d) d)
  end.

End JS.

(** ** [trim] and [split(/\s+/)]

    The regular expression class [\s] and [String.prototype.trim] use the
    same set: the white space and line terminator code units. *)

Definition is_space (c : code_unit) : bool :=
  ((9 <=? c) && (c <=? 13) || (c =? 32) || (c =? 160) || (c =? 5760)
   || (8192 <=? c) && (c <=? 8202) || (c =? 8232) || (c =? 8233)
   || (c =? 8239) || (c =? 8287) || (c =? 12288) || (c =? 65279))%N.

Fixpoint dropWhile {A} (p : A -> bool) (l : list A) : list A :=
  match l with
  | [] => []
  | x :: l' => if p x then dropWhile p l' else l
  end.

Definition trimStart (s : jsstring) : jsstring := dropWhile is_space s.
Definition trimEnd (s : jsstring) : jsstring := rev (dropWhile is_space (rev s)).
Definition trim (s : jsstring) : jsstring := trimEnd (trimStart s).

(** Truthiness of a string: the empty string is falsy. *)
Definition str_truthy (s : jsstring) : bool :=
  match s with [] => false | _ => true end.

(** [s.split(/\s+/)]: the scan of [RegExp.prototype[Symbol.split]].  A
    match of [\s+] is a maximal run of white space, never empty; at its
    start the piece read so far ([cur], reversed) is pushed, and the rest
    of the run is skipped ([in_sep]).  The piece after the last match is
    pushed at the end, so the empty string splits into one empty piece. *)
Fixpoint split_go (in_sep : bool) (cur : jsstring) (s : jsstring) : list jsstring :=
  match s with
  | [] => [rev cur]
  | c :: s' =>
      if is_space c
      then if in_sep then split_go true cur s' else rev cur :: split_go true [] s'
      else split_go false (c :: cur) s'
  end.

Definition split_ws (s : jsstring) : list jsstring := split_go false [] s.

(** ** The statistics of a render *)

Import JS.

Record Stats := mkStats {
  chars : Z;
  words : Z;
  wpmGross : number;
  netWpm : number;
  accuracy : number
}.

Definition elapsedMinutes (s : State) : number :=
  div (num (activeElapsedMs s)) (num 60000).

Definition stats (s : State) : Stats :=
  let chars := str_length (text s) in
  let words :=
    if str_truthy (trim (text s))
    then Z.of_nat (List.length (split_ws (trim (text s))))
    else 0 in
  let wpmGross :=
    if gt (elapsedMinutes s) (num 0)
    then div (div (num chars) (num 5)) (elapsedMinutes s)
    else num 0 in
  let accuracy :=
    if (0 <? totalKeystrokes s)%N
    then mul (div (num chars) (num (Z.of_N (totalKeystrokes s)))) (num 100)
    else num 100 in
  let netWpm := mul wpmGross (div accuracy (num 100)) in
  mkStats chars words
          (if isFinite wpmGross then wpmGross else num 0)
          (if isFinite netWpm then netWpm else num 0)
          (Math_max (num 0) (Math_min (num 100) accuracy)).

(** ** The CSV report *)

(** A property value of the object [row]. *)
Inductive value := VStr (s : jsstring) | VNum (n : number).

(** [String(v)], as [Array.prototype.join] applies it. *)
Definition value_toString (v : value) : jsstring :=
  match v with VStr s => s | VNum n => toString n end.

(** [a.join(sep)] *)
Fixpoint join (sep : jsstring) (l : list jsstring) : jsstring :=
  match l with
  | [] => []
  | [x] => x
  | x :: l' => x ++ sep ++ join sep l'
  end.

(** The object literal [row], as its properties in insertion order;
    [date] is [new Date().toISOString()]. *)
Definition report_row (date : jsstring) (s : State) : list (jsstring * value) :=
  [ (js "date", VStr date);
    (js "duration_seconds", VNum (Math_round (div (num (activeElapsedMs s)) (num 1000))));
    (js "characters", VNum (num (chars (stats s))));
    (js "words", VNum (num (words (stats s))));
    (js "wpm_gross", VNum (toFixed2 (wpmGross (stats s))));
    (js "wpm_net", VNum (toFixed2 (netWpm (stats s))));
    (js "accuracy_percent", VNum (toFixed2 (accuracy (stats s))));
    (js "keystrokes", VNum (num (Z.of_N (totalKeystrokes s))));
    (js "backspaces", VNum (num (Z.of_N (backspaces s))));
    (js "timer_minutes", VNum (num (timerMinutes s))) ].

(** The string [csv] that [downloadReport] puts in the blob.  The separator
    the source writes is the literal ["\\n"]: a backslash and the letter n. *)
Definition backslash_n : jsstring := [92%N; 110%N].

Definition downloadReport (date : jsstring) (s : State) : jsstring :=
  let row := report_row date s in
  let headers := join (js ",") (map fst row) in
  let values := join (js ",") (map (fun kv => value_toString (snd kv)) row) in
  headers ++ backslash_n ++ values ++ backslash_n.

(** The line feed that separates the rows of a CSV file. *)
Definition line_feed : code_unit := 10%N.

(** The rows of a file: its pieces between line feeds. *)
Fixpoint lines_go (cur : jsstring) (s : jsstring) : list jsstring :=
  match s with
  | [] => [rev cur]
  | c :: s' => if (c =? line_feed)%N then rev cur :: lines_go [] s' else lines_go (c :: cur) s'
  end.
Definition lines (s : jsstring) : list jsstring := lines_go [] s.

(** ** Definitions the statements below compare the code with *)

(** The invariant of the data model: [lastStart] is set exactly when the
    session runs. *)
Definition lastStart_iff_running (s : State) : Prop :=
  lastStart s <> None <-> isRunning s = true.

(** The reading of [Date.now()] an operation makes, if it makes one. *)
Definition op_time (o : Op) : option Z :=
  match o with
  | OnTextChanged ts _ | Start ts | Pause ts | ToggleRunning ts | Reset ts
  | CheckTimerExpiry ts => Some ts
  | OnKeyEvent _ | SetTimerMinutes _ | SetTheme _ => None
  end.

(** The clock after an operation, and after a sequence of them. *)
Definition clock_after (t : Z) (o : Op) : Z :=
  match op_time o with Some ts => ts | None => t end.

Definition last_time (t : Z) (ops : list Op) : Z := fold_left clock_after ops t.

(** The readings of the clock never go back: every operation reads a time
    at or after the previous reading, the first one at or after [t]. *)
Fixpoint chrono (t : Z) (ops : list Op) : Prop :=
  match ops with
  | [] => True
  | o :: rest => t <= clock_after t o /\ chrono (clock_after t o) rest
  end.

(** What holds of a state when the clock reads [t]: the session was not
    resumed in the future, and the accumulated time is not negative. *)
Definition clock_inv (t : Z) (s : State) : Prop :=
  (forall x, lastStart s = Some x -> x <= t) /\ 0 <= accumulatedMs s.

(** The transitions that the specification lets change the accumulated time. *)
Definition accumulating_op (o : Op) : bool :=
  match o with
  | Pause _ | ToggleRunning _ | CheckTimerExpiry _ | Reset _ => true
  | _ => false
  end.

Definition is_reset (o : Op) : bool :=
  match o with Reset _ => true | _ => false end.

(** The transitions of the state machine that may change the accumulated
    time, as steps from a state: a pause is a pause or a toggle of a running
    session, a timer expiry is a check that stops a running session, and a
    reset is a reset.  A toggle or a pause of a stopped session, and a check
    that does not stop the session, are not among them. *)
Definition accumulating_transition (o : Op) (s : State) : bool :=
  match o with
  | Pause _ | ToggleRunning _ => isRunning s
  | CheckTimerExpiry _ => isRunning s && negb (isRunning (apply_op o s))
  | Reset _ => true
  | _ => false
  end.

(** In the words of the specification: the number of white-space-delimited
    tokens of a string, that is, of its maximal runs of code units that are
    not white space.  [after_space] tells that the
    previous code unit, if any, was white space. *)
Fixpoint count_tokens_from (after_space : bool) (s : jsstring) : nat :=
  match s with
  | [] => O
  | c :: s' =>
      if is_space c then count_tokens_from true s'
      else (if after_space then 1 else 0)%nat + count_tokens_from false s'
  end.

Definition count_tokens (s : jsstring) : nat := count_tokens_from true s.

(** Whether a string ends in white space; [b] answers for the empty string. *)
Fixpoint ends_space (b : bool) (s : jsstring) : bool :=
  match s with
  | [] => b
  | c :: s' => ends_space (is_space c) s'
  end.

(** In the words of the specification: [accuracyPercent] is
    [min(100, max(0, characterCount / totalKeystrokes * 100))] when a
    keystroke is recorded and 100 otherwise, over the rationals. *)
Definition spec_accuracyPercent (characterCount : Z) (keystrokes : N) : Q :=
  if (0 <? keystrokes)%N
  then Qmin 100 (Qmax 0 (inject_Z characterCount / inject_Z (Z.of_N keystrokes) * 100))
  else 100%Q.

(** *** Sample sessions *)

(** One character typed at time 1000, paused at 1500. *)
Definition paused_session : State :=
  run [OnTextChanged 1000 (js "a"); ToggleRunning 1500] (initialState 0).

(** A one-minute timer, typing starts at time 1000. *)
Definition timed_session : State :=
  run [SetTimerMinutes 1; OnTextChanged 1000 (js "a")] (initialState 0).

(** Ctrl+V pastes ten characters at time 1000: two key events, of which
    only the letter counts; paused one minute later. *)
Definition pasted_session : State :=
  run [OnKeyEvent (js "Control"); OnKeyEvent (js "v");
       OnTextChanged 1000 (js "0123456789"); ToggleRunning 61000] (initialState 0).

(** The example of the specification: eleven characters for eleven
    keystrokes in one minute, with a one-minute timer. *)
Definition hello_session : State :=
  mkState dark (js "hello world") false (Some 1000) None 60000 61000 11%N 0%N 1.

(** ** Display values of a render: times and progress *)

(** [Math.floor] *)
Definition Math_floor (a : number) : number :=
  match a with
  | Fin q => num (Qfloor q)
  | _ => a
  end.

(** The integer part of a rational, towards zero. *)
Definition Qtrunc (q : Q) : Z := if Qis_neg q then Qceiling q else Qfloor q.

(** [a % b]: the remainder has the sign of the dividend; it is NaN for an
    infinite dividend or a zero divisor, and the dividend itself for an
    infinite divisor. *)
Definition rem (a b : number) : number :=
  match a, b with
  | Fin p, Fin q =>
      if Qis_zero q then NaN else Fin (p - q * inject_Z (Qtrunc (p / q)))
  | Fin _, PosInf | Fin _, NegInf => a
  | _, _ => NaN
  end.

(** The first [n] code units of [pad] repeated; [cur] is what is left of
    the current copy. *)
Fixpoint pad_fill (n : nat) (pad cur : jsstring) : jsstring :=
  match n with
  | O => []
  | S n' =>
      match cur with
      | c :: r => c :: pad_fill n' pad r
      | [] =>
          match pad with
          | [] => []
          | c :: r => c :: pad_fill n' pad r
          end
      end
  end.

(** [s.padStart(target, pad)] *)
Definition padStart (target : nat) (pad : jsstring) (s : jsstring) : jsstring :=
  pad_fill (target - List.length s) pad pad ++ s.

Definition formatTime (ms : number) : jsstring :=
  let totalSeconds := Math_floor (div ms (num 1000)) in
  let m := padStart 2 (js "0") (toString (Math_floor (div totalSeconds (num 60)))) in
  let s := padStart 2 (js "0") (toString (rem totalSeconds (num 60))) in
  m ++ js ":" ++ s.

Definition formattedElapsed (s : State) : jsstring :=
  formatTime (num (activeElapsedMs s)).

Definition remainingMs (s : State) : number :=
  if timerEnabled s then Math_max (num 0) (num (timerMs s - activeElapsedMs s)) else num 0.

(** The em dash that stands for "no timer". *)
Definition em_dash : jsstring := [8212%N].

Definition formattedRemaining (s : State) : jsstring :=
  if timerEnabled s then formatTime (remainingMs s) else em_dash.

Definition progress (s : State) : number :=
  if timerEnabled s && (0 <? timerMs s)
  then Math_min (num 100) (mul (div (num (activeElapsedMs s)) (num (timerMs s))) (num 100))
  else num 0.

(** The line of values of the report and its header line, as
    [downloadReport] joins them. *)
Definition report_headers (date : jsstring) (s : State) : jsstring :=
  join (js ",") (map fst (report_row date s)).

Definition report_values (date : jsstring) (s : State) : jsstring :=
  join (js ",") (map (fun kv => value_toString (snd kv)) (report_row date s)).

(** ** Further definitions the statements below compare the code with *)

(** Two digits of minutes, a colon, two digits of seconds. *)
Definition mmss (ms : Z) : jsstring :=
  [ digit (ms / 60000 / 10); digit ((ms / 60000) mod 10); 58%N;
    digit ((ms / 1000) mod 60 / 10); digit (((ms / 1000) mod 60) mod 10) ].

Definition comma : code_unit := 44%N.

(** The fields of a line: its pieces between commas. *)
Fixpoint fields_go (cur : jsstring) (s : jsstring) : list jsstring :=
  match s with
  | [] => [rev cur]
  | c :: s' => if (c =? comma)%N then rev cur :: fields_go [] s' else fields_go (c :: cur) s'
  end.
Definition fields (s : jsstring) : list jsstring := fields_go [] s.

(** A sequence of operations without a reset. *)
Definition no_reset (ops : list Op) : bool := forallb (fun o => negb (is_reset o)) ops.

(** ** Properties *)

Lemma jsstring_eqb_eq (a b : jsstring) : jsstring_eqb a b = true <-> a = b.
Proof.
  revert b; induction a as [|x a IH]; intros [|y b]; simpl; split;
    try congruence; try discriminate.
  - rewrite andb_true_iff, N.eqb_eq, IH. intros [-> ->]; reflexivity.
  - intros H; injection H as -> ->. now rewrite N.eqb_refl, (proj2 (IH b) eq_refl).
Qed.

Lemma jsstring_eqb_neq (a b : jsstring) : jsstring_eqb a b = false <-> a <> b.
Proof.
  rewrite <- jsstring_eqb_eq. destruct (jsstring_eqb a b); split; congruence.
Qed.

Lemma str_length_pos (v : jsstring) : (0 <? str_length v) = str_truthy v.
Proof.
  destruct v; [reflexivity|].
  unfold str_length; simpl List.length. apply Z.ltb_lt. lia.
Qed.

(** *** The running flag and [lastStart] *)

Section Invariant.

Local Ltac crush_handler :=
  repeat match goal with
         | |- context [if ?b then _ else _] => destruct b
         end;
  simpl in *; intuition (congruence || discriminate || auto).

Lemma startIfNeeded_inv ts s :
  lastStart_iff_running s -> lastStart_iff_running (startIfNeeded ts s).
Proof.
  unfold lastStart_iff_running, startIfNeeded.
  destruct s as [th tx r sa ls acc nw tk bs tm]; simpl. crush_handler.
Qed.

Lemma pauseResume_inv ts s : lastStart_iff_running (pauseResume ts s).
Proof.
  unfold lastStart_iff_running, pauseResume.
  destruct s as [th tx r sa ls acc nw tk bs tm]; simpl. crush_handler.
Qed.

Lemma timerExpiryEffect_inv s :
  lastStart_iff_running s -> lastStart_iff_running (timerExpiryEffect s).
Proof.
  unfold lastStart_iff_running, timerExpiryEffect.
  destruct s as [th tx r sa ls acc nw tk bs tm]; simpl. crush_handler.
Qed.

Lemma apply_op_inv o s :
  lastStart_iff_running s -> lastStart_iff_running (apply_op o s).
Proof.
  intros H. destruct o as [ts v|key|ts|ts|ts|ts|n|th|ts]; simpl.
  - unfold handleChange. destruct (0 <? str_length v).
    + apply (startIfNeeded_inv ts) in H. exact H.
    + exact H.
  - unfold handleKeyDown.
    destruct (isPrintable key), (jsstring_eqb key (js "Backspace")); exact H.
  - now apply startIfNeeded_inv.
  - unfold pause. destruct (isRunning s) eqn:E; [apply pauseResume_inv | exact H].
  - apply pauseResume_inv.
  - unfold lastStart_iff_running; simpl. split; [congruence | discriminate].
  - exact H.
  - exact H.
  - unfold checkTimerExpiry. apply timerExpiryEffect_inv.
    unfold tick. destruct (isRunning s) eqn:E; [|exact H].
    unfold lastStart_iff_running in *; simpl. now rewrite E in *.
Qed.

End Invariant.

(** C7.  In every state reached from the initial state by any sequence of
    the public operations (text changes, key events, start, pause, toggle,
    reset, timer setting, theme setting, timer-expiry checks), [lastStart]
    is set if and only if [isRunning] is true. *)
Theorem lastStart_set_iff_running (t0 : Z) (ops : list Op) :
  lastStart_iff_running (run ops (initialState t0)).
Proof.
  unfold run.
  assert (H0 : lastStart_iff_running (initialState t0)).
  { unfold lastStart_iff_running; simpl. split; [congruence | discriminate]. }
  revert H0. generalize (initialState t0) as s.
  induction ops as [|o ops IH]; intros s Hs; simpl.
  - exact Hs.
  - apply IH, apply_op_inv, Hs.
Qed.

(** *** Text changes *)

Lemma startIfNeeded_running ts s :
  isRunning s = true -> startedAt s <> None -> startIfNeeded ts s = s.
Proof.
  intros Hr Hs. unfold startIfNeeded. rewrite Hr; simpl.
  destruct (startedAt s); [reflexivity | congruence].
Qed.

Lemma startIfNeeded_paused ts s :
  isRunning s = false ->
  isRunning (startIfNeeded ts s) = true /\ lastStart (startIfNeeded ts s) = Some ts.
Proof.
  intros Hr. unfold startIfNeeded. rewrite Hr; simpl. split; reflexivity.
Qed.

(** C3, as the code has it.  [handleChange] stores the new text; it calls
    [startIfNeeded] exactly when the new text is not empty, whatever the
    previous text was, so a paused session whose text is not empty resumes
    at the next text change; with an empty new text only the text cell
    changes; and so it does when the session already runs. *)
Theorem handleChange_starts_on_nonempty (ts : Z) (v : jsstring) (s : State) :
  text (handleChange ts v s) = v /\
  (v = [] -> handleChange ts v s = setText v s) /\
  (v <> [] -> handleChange ts v s = setText v (startIfNeeded ts s)) /\
  (v <> [] -> isRunning s = false ->
     isRunning (handleChange ts v s) = true /\
     lastStart (handleChange ts v s) = Some ts) /\
  (isRunning s = true -> startedAt s <> None -> handleChange ts v s = setText v s).
Proof.
  unfold handleChange. rewrite str_length_pos.
  repeat split.
  - intros ->. reflexivity.
  - intros Hv. destruct v; [congruence | reflexivity].
  - destruct v; [congruence|]. simpl. apply startIfNeeded_paused. assumption.
  - destruct v; [congruence|]. simpl. apply startIfNeeded_paused. assumption.
  - intros Hr Hs. destruct v; simpl; [reflexivity|].
    now rewrite startIfNeeded_running.
Qed.

Lemma handleChange_starts_on_nonempty_witness :
  text (handleChange 2000 (js "ab") paused_session) = js "ab" /\
  isRunning (handleChange 2000 (js "ab") paused_session) = true /\
  lastStart (handleChange 2000 (js "ab") paused_session) = Some 2000 /\
  handleChange 2000 [] paused_session = setText [] paused_session.
Proof.
  destruct (handleChange_starts_on_nonempty 2000 (js "ab") paused_session)
    as (Ht & _ & _ & Hstart & _).
  destruct (handleChange_starts_on_nonempty 2000 [] paused_session)
    as (_ & Hempty & _).
  split; [exact Ht|].
  split; [apply Hstart; [discriminate | reflexivity]|].
  split; [apply Hstart; [discriminate | reflexivity]|].
  apply Hempty. reflexivity.
Defined.

(** C3 as stated fails: the session is paused and its text is not empty,
    yet the text change sets more than the text: the session runs again. *)
Lemma handleChange_resumes_paused_session :
  text paused_session = js "a" /\
  isRunning paused_session = false /\
  isRunning (handleChange 2000 (js "ab") paused_session) = true /\
  handleChange 2000 (js "ab") paused_session <> setText (js "ab") paused_session.
Proof.
  repeat split. intros H. discriminate H.
Qed.

(** *** Key events *)

Lemma isPrintable_spec (key : jsstring) :
  isPrintable key = true <->
  (List.length key = 1%nat \/ key = js "Enter" \/ key = js "Tab" \/ key = js "Spacebar").
Proof.
  unfold isPrintable.
  rewrite !orb_true_iff, !jsstring_eqb_eq, Z.eqb_eq. unfold str_length.
  split.
  - intros [[[[H|H]|H]|H]|H]; auto.
    + left. lia.
    + left. rewrite H. reflexivity.
  - intros [H|[H|[H|H]]]; auto.
    left; left; left; left. lia.
Qed.

(** C6, as the code has it.  A key is printable when it is one code unit
    long or is one of Enter, Tab and Spacebar (the name old browsers give
    the space key); a printable key adds one to [totalKeystrokes] and
    nothing else, Backspace adds one to [totalKeystrokes] and one to
    [backspaces], and every other key leaves the state as it is. *)
Theorem handleKeyDown_classes (key : jsstring) (s : State) :
  (isPrintable key = true <->
     (List.length key = 1%nat \/ key = js "Enter" \/ key = js "Tab" \/ key = js "Spacebar")) /\
  (isPrintable key = true ->
     handleKeyDown key s = setTotalKeystrokes (totalKeystrokes s + 1)%N s) /\
  (key = js "Backspace" ->
     handleKeyDown key s =
       setTotalKeystrokes (totalKeystrokes s + 1)%N (setBackspaces (backspaces s + 1)%N s)) /\
  (isPrintable key = false -> key <> js "Backspace" -> handleKeyDown key s = s).
Proof.
  split; [apply isPrintable_spec|].
  unfold handleKeyDown. repeat split.
  - intros Hp. rewrite Hp.
    destruct (jsstring_eqb key (js "Backspace")) eqn:E; [|reflexivity].
    apply jsstring_eqb_eq in E. subst key. discriminate Hp.
  - intros ->. reflexivity.
  - intros Hp Hb. rewrite Hp. apply jsstring_eqb_neq in Hb. rewrite Hb. reflexivity.
Qed.

Lemma handleKeyDown_classes_witness :
  totalKeystrokes (handleKeyDown (js "a") (initialState 0)) = 1%N /\
  totalKeystrokes (handleKeyDown (js "Backspace") (initialState 0)) = 1%N /\
  backspaces (handleKeyDown (js "Backspace") (initialState 0)) = 1%N /\
  handleKeyDown (js "Shift") (initialState 0) = initialState 0.
Proof.
  destruct (handleKeyDown_classes (js "a") (initialState 0)) as (_ & Hp & _).
  destruct (handleKeyDown_classes (js "Backspace") (initialState 0)) as (_ & _ & Hb & _).
  destruct (handleKeyDown_classes (js "Shift") (initialState 0)) as (_ & _ & _ & Ho).
  split; [rewrite Hp; reflexivity|].
  split; [rewrite Hb; reflexivity|].
  split; [rewrite Hb; reflexivity|].
  apply Ho; [reflexivity | discriminate].
Defined.

(** C6 as stated fails on its own example: "Spacebar" is counted as a
    keystroke. *)
Lemma handleKeyDown_counts_Spacebar :
  totalKeystrokes (handleKeyDown (js "Spacebar") (initialState 0)) = 1%N /\
  handleKeyDown (js "Spacebar") (initialState 0) <> initialState 0.
Proof.
  split; [reflexivity | discriminate].
Qed.

(** *** Timer expiry *)

Lemma checkTimerExpiry_accumulatedMs ts s :
  accumulatedMs (checkTimerExpiry ts s) = accumulatedMs s.
Proof.
  unfold checkTimerExpiry, timerExpiryEffect, tick.
  destruct (isRunning s) eqn:Er; simpl;
    repeat match goal with |- context [if ?b then _ else _] => destruct b end;
    reflexivity.
Qed.

Lemma checkTimerExpiry_paused ts s :
  isRunning s = false -> checkTimerExpiry ts s = s.
Proof.
  intros Hr. unfold checkTimerExpiry, timerExpiryEffect, tick. rewrite !Hr.
  destruct (negb (timerEnabled s)); reflexivity.
Qed.

Lemma checkTimerExpiry_stops ts s :
  timerEnabled s = true -> isRunning s = true ->
  timerMs s <= getActiveElapsedMs ts s ->
  isRunning (checkTimerExpiry ts s) = false /\ lastStart (checkTimerExpiry ts s) = None.
Proof.
  intros He Hr Hle.
  unfold checkTimerExpiry, timerExpiryEffect, tick. rewrite Hr.
  replace (timerEnabled (setNow ts s)) with true by (symmetry; exact He).
  replace (isRunning (setNow ts s)) with true by (symmetry; exact Hr).
  simpl negb. cbv iota.
  change (activeElapsedMs (setNow ts s)) with (getActiveElapsedMs ts s).
  change (timerMs (setNow ts s)) with (timerMs s).
  apply Z.leb_le in Hle. rewrite Hle.
  assert (Hpos : (0 <? timerMs s) = true).
  { unfold timerEnabled in He. apply Z.ltb_lt in He. apply Z.ltb_lt.
    unfold timerMs. lia. }
  rewrite Hpos. simpl. split; reflexivity.
Qed.

(** C1, evaluated on the code.  The timer is on, the session runs and one
    minute of activity has passed: the expiry effect stops the session and
    clears [lastStart], and a second check changes nothing, but unlike
    [pause] it does not add the running interval to [accumulatedMs]: the
    minute is lost and the elapsed time falls back to zero. *)
Theorem checkTimerExpiry_drops_running_interval :
  timerEnabled timed_session = true /\
  isRunning timed_session = true /\
  lastStart timed_session = Some 1000 /\
  accumulatedMs timed_session = 0 /\
  getActiveElapsedMs 61000 timed_session = timerMs timed_session /\
  isRunning (checkTimerExpiry 61000 timed_session) = false /\
  lastStart (checkTimerExpiry 61000 timed_session) = None /\
  accumulatedMs (checkTimerExpiry 61000 timed_session) = 0 /\
  accumulatedMs (pause 61000 timed_session) = 60000 /\
  checkTimerExpiry 61000 timed_session <> pause 61000 timed_session /\
  activeElapsedMs (checkTimerExpiry 61000 timed_session) = 0 /\
  checkTimerExpiry 62000 (checkTimerExpiry 61000 timed_session)
    = checkTimerExpiry 61000 timed_session.
Proof.
  repeat split. intros H. discriminate H.
Qed.

(** *** Reset *)

Lemma resetAll_state ts s :
  resetAll ts s = setTheme (theme s) (setTimerMinutes (timerMinutes s) (initialState ts)).
Proof. reflexivity. Qed.

(** *** The accumulated time along a session *)

Section Accumulated.

Local Ltac open_state s :=
  destruct s as [th tx r sa ls acc nw tk bs tm]; simpl in *.

Local Ltac split_ifs :=
  repeat match goal with
         | |- context [if ?b then _ else _] => destruct b eqn:?
         end; simpl in *.

Lemma clock_inv_initial t0 : clock_inv t0 (initialState t0).
Proof. split; simpl; [discriminate | lia]. Qed.

Lemma pauseResume_clock t ts s :
  clock_inv t s -> t <= ts ->
  clock_inv ts (pauseResume ts s) /\
  accumulatedMs s <= accumulatedMs (pauseResume ts s).
Proof.
  unfold clock_inv, pauseResume, updAccumulatedMs. open_state s. intros [Hl Ha] Ht.
  destruct r; simpl.
  - destruct ls as [x|]; simpl.
    + specialize (Hl x eq_refl). destruct (x =? 0); simpl;
        repeat split; try discriminate; lia.
    + repeat split; try discriminate; lia.
  - destruct sa; simpl; repeat split; try lia;
      intros x Hx; injection Hx as <-; lia.
Qed.

Lemma startIfNeeded_clock t ts s :
  clock_inv t s -> t <= ts ->
  clock_inv ts (startIfNeeded ts s) /\
  accumulatedMs (startIfNeeded ts s) = accumulatedMs s.
Proof.
  unfold clock_inv, startIfNeeded. open_state s. intros [Hl Ha] Ht.
  destruct r, sa; simpl; repeat split; try lia;
    intros x Hx; try (injection Hx as <-; lia); specialize (Hl x Hx); lia.
Qed.

Lemma timerExpiryEffect_clock t s :
  clock_inv t s -> clock_inv t (timerExpiryEffect s).
Proof.
  unfold clock_inv, timerExpiryEffect. intros [Hl Ha].
  split_ifs; split; simpl; auto; discriminate.
Qed.

Lemma apply_op_clock t o s :
  clock_inv t s -> t <= clock_after t o ->
  clock_inv (clock_after t o) (apply_op o s).
Proof.
  intros H Ht. destruct o as [ts v|key|ts|ts|ts|ts|n|th|ts];
    unfold clock_after in *; simpl in *.
  - unfold handleChange. destruct (0 <? str_length v).
    + destruct (startIfNeeded_clock t ts s H Ht) as [[Hl Ha] _]. split; assumption.
    + destruct H as [Hl Ha]. split; simpl; [|assumption].
      intros x Hx. specialize (Hl x Hx). lia.
  - unfold handleKeyDown.
    destruct (isPrintable key), (jsstring_eqb key (js "Backspace")); exact H.
  - apply (startIfNeeded_clock t ts s H Ht).
  - unfold pause. destruct (isRunning s).
    + apply (pauseResume_clock t ts s H Ht).
    + destruct H as [Hl Ha]. split; [|assumption].
      intros x Hx. specialize (Hl x Hx). lia.
  - apply (pauseResume_clock t ts s H Ht).
  - split; simpl; [discriminate | lia].
  - exact H.
  - exact H.
  - unfold checkTimerExpiry. apply timerExpiryEffect_clock.
    destruct H as [Hl Ha]. unfold tick.
    destruct (isRunning s); split; simpl; try assumption;
      intros x Hx; specialize (Hl x Hx); lia.
Qed.

Lemma apply_op_monotone t o s :
  clock_inv t s -> t <= clock_after t o -> is_reset o = false ->
  accumulatedMs s <= accumulatedMs (apply_op o s).
Proof.
  intros H Ht Hr. destruct o as [ts v|key|ts|ts|ts|ts|n|th|ts];
    unfold clock_after in *; simpl in *; try discriminate.
  - unfold handleChange. destruct (0 <? str_length v); simpl; [|lia].
    destruct (startIfNeeded_clock t ts s H Ht) as [_ ->]. lia.
  - unfold handleKeyDown.
    destruct (isPrintable key), (jsstring_eqb key (js "Backspace")); simpl; lia.
  - destruct (startIfNeeded_clock t ts s H Ht) as [_ ->]. lia.
  - unfold pause. destruct (isRunning s); [|lia].
    apply (pauseResume_clock t ts s H Ht).
  - apply (pauseResume_clock t ts s H Ht).
  - lia.
  - lia.
  - rewrite checkTimerExpiry_accumulatedMs. lia.
Qed.

Lemma apply_op_frame o s :
  accumulating_op o = false -> accumulatedMs (apply_op o s) = accumulatedMs s.
Proof.
  destruct o as [ts v|key|ts|ts|ts|ts|n|th|ts]; simpl; try discriminate; intros _.
  - unfold handleChange, startIfNeeded. split_ifs; reflexivity.
  - unfold handleKeyDown. split_ifs; reflexivity.
  - unfold startIfNeeded. split_ifs; reflexivity.
  - reflexivity.
  - reflexivity.
Qed.

Lemma apply_op_frame_transition o s :
  accumulating_transition o s = false ->
  accumulatedMs (apply_op o s) = accumulatedMs s.
Proof.
  intros H.
  destruct (accumulating_op o) eqn:Eo; [|apply apply_op_frame; exact Eo].
  destruct o as [ts v|key|ts|ts|ts|ts|n|th|ts]; try discriminate Eo.
  - cbn [accumulating_transition] in H. cbn [apply_op].
    unfold pause. rewrite H. reflexivity.
  - cbn [accumulating_transition] in H. cbn [apply_op].
    unfold pauseResume. rewrite H.
    destruct (is_null (startedAt s)); reflexivity.
  - discriminate H.
  - cbn [apply_op]. apply checkTimerExpiry_accumulatedMs.
Qed.

Lemma chrono_snoc t ops o :
  chrono t (ops ++ [o]) <->
  chrono t ops /\ last_time t ops <= clock_after (last_time t ops) o.
Proof.
  revert t. induction ops as [|p ops IH]; intros t; simpl.
  - tauto.
  - rewrite IH. unfold last_time. tauto.
Qed.

Lemma run_clock t ops s :
  clock_inv t s -> chrono t ops -> clock_inv (last_time t ops) (run ops s).
Proof.
  revert t s. induction ops as [|o ops IH]; intros t s Hs Hc; simpl in *.
  - exact Hs.
  - destruct Hc as [Ht Hc]. apply IH; [|exact Hc].
    now apply apply_op_clock.
Qed.

End Accumulated.

(** C5, as the code has it.  Along every sequence of operations whose clock
    readings never go back, no operation other than a reset lowers
    [accumulatedMs]; a reset puts it back to zero; it changes only on a
    pause transition (a pause or a toggle of a running session), a
    timer-expiry transition (a check that stops the session) or a reset:
    text changes, key events, start, the resume branch of the toggle, a
    pause of a stopped session, a check that does not stop the session,
    timer and theme settings never change it; and it is never negative. *)
Theorem accumulatedMs_steps (t0 : Z) (ops : list Op) (o : Op) :
  chrono t0 (ops ++ [o]) ->
  let s := run ops (initialState t0) in
  (is_reset o = false -> accumulatedMs s <= accumulatedMs (apply_op o s)) /\
  (is_reset o = true -> accumulatedMs (apply_op o s) = 0) /\
  (accumulatedMs (apply_op o s) <> accumulatedMs s -> accumulating_transition o s = true) /\
  (accumulating_transition o s = false -> accumulatedMs (apply_op o s) = accumulatedMs s) /\
  0 <= accumulatedMs s.
Proof.
  intros Hc s. apply chrono_snoc in Hc. destruct Hc as [Hc Ht].
  assert (Hs : clock_inv (last_time t0 ops) s).
  { apply run_clock; [apply clock_inv_initial | exact Hc]. }
  repeat split.
  - intros Hr. exact (apply_op_monotone _ o s Hs Ht Hr).
  - destruct o; simpl; try discriminate. reflexivity.
  - intros Hd. destruct (accumulating_transition o s) eqn:E; [reflexivity|].
    exfalso. apply Hd. now apply apply_op_frame_transition.
  - apply apply_op_frame_transition.
  - apply Hs.
Qed.

Lemma accumulatedMs_steps_witness :
  chrono 0 ([ToggleRunning 1000; ToggleRunning 2000] ++ [ToggleRunning 3000]) /\
  chrono 0 ([ToggleRunning 1000] ++ [ToggleRunning 2000]) /\
  accumulatedMs (apply_op (ToggleRunning 3000)
                   (run [ToggleRunning 1000; ToggleRunning 2000] (initialState 0)))
    = accumulatedMs (run [ToggleRunning 1000; ToggleRunning 2000] (initialState 0)) /\
  accumulatedMs (run [ToggleRunning 1000] (initialState 0))
    <= accumulatedMs (apply_op (ToggleRunning 2000) (run [ToggleRunning 1000] (initialState 0))) /\
  0 <= accumulatedMs (run [ToggleRunning 1000] (initialState 0)).
Proof.
  assert (Hr : chrono 0 ([ToggleRunning 1000; ToggleRunning 2000] ++ [ToggleRunning 3000])).
  { simpl. unfold clock_after; simpl. lia. }
  assert (Hc : chrono 0 ([ToggleRunning 1000] ++ [ToggleRunning 2000])).
  { simpl. unfold clock_after; simpl. lia. }
  split; [exact Hr|]. split; [exact Hc|].
  destruct (accumulatedMs_steps 0 [ToggleRunning 1000; ToggleRunning 2000]
              (ToggleRunning 3000) Hr) as (_ & _ & _ & Hframe & _).
  destruct (accumulatedMs_steps 0 [ToggleRunning 1000] (ToggleRunning 2000) Hc)
    as (Hmono & _ & _ & _ & Hpos).
  split; [apply Hframe; reflexivity|].
  split; [apply Hmono; reflexivity | exact Hpos].
Defined.

(** C5 as stated fails: with the clock going forward, a reset after a pause
    takes the accumulated time from 1000 back to 0. *)
Lemma accumulatedMs_decreases_on_reset :
  chrono 0 [ToggleRunning 1000; ToggleRunning 2000; Reset 3000] /\
  accumulatedMs (run [ToggleRunning 1000; ToggleRunning 2000] (initialState 0)) = 1000 /\
  accumulatedMs
    (run [ToggleRunning 1000; ToggleRunning 2000; Reset 3000] (initialState 0)) = 0 /\
  ~ (accumulatedMs (run [ToggleRunning 1000; ToggleRunning 2000] (initialState 0))
     <= accumulatedMs
          (run [ToggleRunning 1000; ToggleRunning 2000; Reset 3000] (initialState 0))).
Proof.
  split; [simpl; unfold clock_after; simpl; lia|].
  split; [reflexivity|]. split; [reflexivity|].
  intros H. vm_compute in H. apply H. reflexivity.
Qed.

(** Why the clock matters: were [Date.now()] to go back between a resume
    and the next pause, the pause would subtract from the accumulated time. *)
Lemma accumulatedMs_decreases_when_clock_goes_back :
  ~ chrono 0 [ToggleRunning 1000; ToggleRunning 2000; ToggleRunning 3000; ToggleRunning 2500] /\
  accumulatedMs
    (run [ToggleRunning 1000; ToggleRunning 2000; ToggleRunning 3000] (initialState 0)) = 1000 /\
  accumulatedMs
    (run [ToggleRunning 1000; ToggleRunning 2000; ToggleRunning 3000; ToggleRunning 2500]
         (initialState 0)) = 500.
Proof.
  split; [|split; reflexivity].
  simpl. unfold clock_after; simpl. lia.
Qed.

(** C9.  [resetAll] puts every cell of the session back to its initial
    value (empty text, both counters zero, not running, [startedAt] and
    [lastStart] cleared, nothing accumulated), so the statistics read
    0 characters, 0 words, 0 gross and net WPM, 100 percent accuracy and no
    elapsed time, at the reset and at any later reading of the clock; the
    timer minutes (and the theme) stay as they were. *)
Theorem resetAll_restores_initial (ts : Z) (s : State) :
  let s' := resetAll ts s in
  text s' = [] /\ totalKeystrokes s' = 0%N /\ backspaces s' = 0%N /\
  isRunning s' = false /\ startedAt s' = None /\ lastStart s' = None /\
  accumulatedMs s' = 0 /\
  timerMinutes s' = timerMinutes s /\ theme s' = theme s /\
  chars (stats s') = 0 /\ words (stats s') = 0 /\
  num_eq (wpmGross (stats s')) (num 0) /\
  num_eq (netWpm (stats s')) (num 0) /\
  num_eq (accuracy (stats s')) (num 100) /\
  activeElapsedMs s' = 0 /\
  (forall t, getActiveElapsedMs t s' = 0).
Proof.
  cbv zeta. repeat split.
Qed.

(** *** Word count *)

Section Words.

Lemma ends_space_snoc b s c : ends_space b (s ++ [c]) = is_space c.
Proof. revert b; induction s as [|x s IH]; intros b; simpl; auto. Qed.

(** Pieces and tokens: the split pushes one piece per run of white space
    and one at the end, the tokens are the runs in between. *)
Lemma split_go_length s : forall b cur,
  (List.length (split_go b cur s) + (if b then 1 else 0)
   = count_tokens_from b s + (if ends_space b s then 1 else 0) + 1)%nat.
Proof.
  induction s as [|c s IH]; intros b cur; simpl.
  - destruct b; lia.
  - destruct (is_space c) eqn:Ec.
    + destruct b; simpl.
      * apply IH.
      * specialize (IH true []). simpl in IH. lia.
    + specialize (IH false (c :: cur)). simpl in IH. destruct b; lia.
Qed.

Lemma dropWhile_head {A} (p : A -> bool) l x l' :
  dropWhile p l = x :: l' -> p x = false.
Proof.
  induction l as [|y l IH]; simpl; [discriminate|].
  destruct (p y) eqn:E; [exact IH|].
  intros H; injection H as <- <-. exact E.
Qed.

Lemma dropWhile_suffix {A} (p : A -> bool) l :
  exists pre, l = pre ++ dropWhile p l.
Proof.
  induction l as [|y l [pre IH]]; simpl.
  - exists []. reflexivity.
  - destruct (p y).
    + exists (y :: pre). simpl. now rewrite <- IH.
    + exists []. reflexivity.
Qed.

(** A trimmed string that is not empty begins and ends with a code unit
    that is not white space. *)
Lemma trim_shape t c s' :
  trim t = c :: s' -> is_space c = false /\ ends_space false s' = false.
Proof.
  unfold trim, trimEnd, trimStart. intros H.
  remember (dropWhile is_space t) as u eqn:Eu.
  remember (dropWhile is_space (rev u)) as w eqn:Ew.
  destruct w as [|x w'].
  { simpl in H. discriminate H. }
  assert (Hx : is_space x = false) by (symmetry in Ew; exact (dropWhile_head _ _ _ _ Ew)).
  destruct (dropWhile_suffix is_space (rev u)) as [pre Hpre].
  rewrite <- Ew in Hpre.
  assert (Hu : u = rev (x :: w') ++ rev pre).
  { rewrite <- rev_app_distr, <- Hpre, rev_involutive. reflexivity. }
  rewrite H in Hu. simpl in Hu.
  split.
  - rewrite Hu in Eu. symmetry in Eu. exact (dropWhile_head _ _ _ _ Eu).
  - simpl in H. destruct (rev w') as [|y r] eqn:Er; simpl in H.
    + injection H as <- <-. reflexivity.
    + injection H as <- <-. rewrite ends_space_snoc. exact Hx.
Qed.

Lemma split_ws_trimmed t :
  trim t <> [] ->
  List.length (split_ws (trim t)) = count_tokens (trim t).
Proof.
  intros Hne. destruct (trim t) as [|c s'] eqn:E; [congruence|].
  destruct (trim_shape t c s' E) as [Hc He].
  unfold split_ws, count_tokens. simpl. rewrite Hc.
  pose proof (split_go_length s' false [c]) as L. rewrite He in L. simpl in L. lia.
Qed.

End Words.

(** C10.  The word count is 0 when the trimmed text is empty (the empty
    text and text of white space only), and otherwise the number of
    white-space-delimited tokens of the trimmed text. *)
Theorem words_counts_tokens (s : State) :
  words (stats s) =
    match trim (text s) with
    | [] => 0
    | _ => Z.of_nat (count_tokens (trim (text s)))
    end.
Proof.
  unfold stats; simpl.
  destruct (trim (text s)) as [|c r] eqn:E; simpl; [reflexivity|].
  rewrite <- E, split_ws_trimmed; [reflexivity|].
  rewrite E. discriminate.
Qed.

(** The examples of the specification and of the claim: no word in the
    empty text or in white space, although the split of [""] has one piece. *)
Example words_examples :
  words (stats (setText (js "") (initialState 0))) = 0 /\
  words (stats (setText (js "   ") (initialState 0))) = 0 /\
  List.length (split_ws (js "")) = 1%nat /\
  words (stats (setText (js " hello   world ") (initialState 0))) = 2.
Proof. repeat split. Qed.

(** *** Accuracy *)

Section Accuracy.

Local Open Scope Q_scope.

Lemma Qle_bool_false p q : Qle_bool p q = false -> q < p.
Proof.
  intros H. apply Qnot_le_lt. intros Hle.
  apply Qle_bool_iff in Hle. congruence.
Qed.

(** The clamp of the code, [Math.max(0, Math.min(100, a))], against the
    clamp of the specification, [min(100, max(0, a))]. *)
Lemma clamp_spec (a : Q) :
  exists q, Math_max (num 0) (Math_min (num 100) (Fin a)) = Fin q /\
            q == Qmin 100 (Qmax 0 a) /\ 0 <= q <= 100.
Proof.
  unfold Math_max, Math_min, num; simpl. unfold Qlt_bool.
  destruct (Qle_bool (inject_Z 100) a) eqn:E100; simpl.
  - apply Qle_bool_iff in E100. change (inject_Z 100) with 100 in E100.
    exists 100. split; [reflexivity|]. split.
    + rewrite (Q.max_r 0 a) by (apply Qle_trans with 100; [discriminate | exact E100]).
      rewrite (Q.min_l 100 a) by exact E100. reflexivity.
    + split; [discriminate | apply Qle_refl].
  - apply Qle_bool_false in E100. change (inject_Z 100) with 100 in E100.
    unfold Qlt_bool.
    destruct (Qle_bool a (inject_Z 0)) eqn:E0; simpl.
    + apply Qle_bool_iff in E0. change (inject_Z 0) with 0 in E0.
      exists 0. split; [reflexivity|]. split.
      * rewrite (Q.max_l 0 a) by exact E0.
        rewrite (Q.min_r 100 0) by discriminate. reflexivity.
      * split; [apply Qle_refl | discriminate].
    + apply Qle_bool_false in E0. change (inject_Z 0) with 0 in E0.
      exists a. split; [reflexivity|]. split.
      * rewrite (Q.max_r 0 a) by (apply Qlt_le_weak; exact E0).
        rewrite (Q.min_r 100 a) by (apply Qlt_le_weak; exact E100). reflexivity.
      * split; apply Qlt_le_weak; assumption.
Qed.

(** With a keystroke recorded the raw ratio is a rational: the division is
    by a number that is not zero. *)
Lemma raw_accuracy_finite (c : Z) (k : N) :
  (0 < k)%N ->
  mul (div (num c) (num (Z.of_N k))) (num 100)
  = Fin (inject_Z c / inject_Z (Z.of_N k) * inject_Z 100).
Proof.
  intros Hk. unfold mul, div, num, Qis_zero. simpl Qnum.
  destruct (Z.of_N k =? 0)%Z eqn:E; [|reflexivity].
  apply Z.eqb_eq in E. lia.
Qed.

End Accuracy.

(** C8.  The accuracy that [stats] returns is a number, equal to the formula
    of the specification: 100 when no keystroke is recorded, whatever the
    text, and otherwise [min(100, max(0, chars / totalKeystrokes * 100))];
    it always lies between 0 and 100. *)
Theorem accuracy_clamped (s : State) :
  exists q : Q,
    accuracy (stats s) = Fin q /\
    (q == spec_accuracyPercent (str_length (text s)) (totalKeystrokes s))%Q /\
    (0 <= q <= 100)%Q /\
    (if (totalKeystrokes s =? 0)%N then (q == 100)%Q
     else (q == Qmin 100 (Qmax 0 (inject_Z (str_length (text s))
                                    / inject_Z (Z.of_N (totalKeystrokes s)) * 100)))%Q).
Proof.
  unfold stats, spec_accuracyPercent; cbv beta zeta; cbn [accuracy].
  destruct (0 <? totalKeystrokes s)%N eqn:Ek.
  - apply N.ltb_lt in Ek.
    rewrite raw_accuracy_finite by exact Ek.
    destruct (clamp_spec (inject_Z (str_length (text s))
                          / inject_Z (Z.of_N (totalKeystrokes s)) * inject_Z 100))
      as (q & Hq & Heq & Hr).
    exists q. split; [exact Hq|]. split; [exact Heq|]. split; [exact Hr|].
    destruct (totalKeystrokes s =? 0)%N eqn:E0.
    + apply N.eqb_eq in E0. lia.
    + exact Heq.
  - apply N.ltb_ge in Ek.
    exists 100%Q. split; [reflexivity|]. split; [reflexivity|].
    split; [split; discriminate|].
    destruct (totalKeystrokes s =? 0)%N eqn:E0; [reflexivity|].
    apply N.eqb_neq in E0. lia.
Qed.

(** The example of the specification: no keystroke recorded and the text
    "abc" give accuracy 100 and three characters. *)
Example accuracy_without_keystrokes :
  accuracy (stats (setText (js "abc") (initialState 0))) = num 100 /\
  chars (stats (setText (js "abc") (initialState 0))) = 3.
Proof. split; reflexivity. Qed.

(** *** Net WPM *)

(** C2, evaluated on the code.  Ten characters pasted with one counted
    keystroke, one minute of activity: the gross WPM is 2 and the accuracy
    that [stats] returns is 100, but the net WPM is 20, not 2: it is
    computed from the ratio before the clamp. *)
Theorem netWpm_uses_unclamped_accuracy :
  chars (stats pasted_session) = 10 /\
  totalKeystrokes pasted_session = 1%N /\
  activeElapsedMs pasted_session = 60000 /\
  num_eq (wpmGross (stats pasted_session)) (num 2) /\
  num_eq (accuracy (stats pasted_session)) (num 100) /\
  num_eq (netWpm (stats pasted_session)) (num 20) /\
  ~ num_eq (netWpm (stats pasted_session))
           (mul (wpmGross (stats pasted_session))
                (div (accuracy (stats pasted_session)) (num 100))).
Proof.
  repeat split. intros H. vm_compute in H. discriminate H.
Qed.

(** *** The CSV report *)

Section Report.

Lemma no_line_feed_check (s : jsstring) :
  forallb (fun c => negb (c =? line_feed)%N) s = true -> ~ In line_feed s.
Proof.
  intros H Hin. rewrite forallb_forall in H. specialize (H _ Hin).
  rewrite N.eqb_refl in H. discriminate H.
Qed.

Lemma digit_not_line_feed k : digit k <> line_feed.
Proof. unfold digit, line_feed. lia. Qed.

Lemma digits_fuel_no_line_feed fuel : forall n acc,
  ~ In line_feed acc -> ~ In line_feed (digits_fuel fuel n acc).
Proof.
  induction fuel as [|f IH]; intros n acc Hacc; simpl; [exact Hacc|].
  assert (H' : ~ In line_feed (digit (n mod 10) :: acc)).
  { simpl. intros [H|H]; [exact (digit_not_line_feed _ H) | exact (Hacc H)]. }
  destruct (n / 10 =? 0); [exact H' | apply IH, H'].
Qed.

Lemma frac_digits_no_line_feed fuel : forall r d,
  ~ In line_feed (frac_digits fuel r d).
Proof.
  induction fuel as [|f IH]; intros r d; simpl; [tauto|].
  destruct (r =? 0); simpl; [tauto|].
  intros [H|H]; [exact (digit_not_line_feed _ H) | exact (IH _ _ H)].
Qed.

Lemma toString_no_line_feed n : ~ In line_feed (toString n).
Proof.
  destruct n as [q| | |]; try (apply no_line_feed_check; reflexivity).
  unfold toString. rewrite !in_app_iff. intros [H|[H|H]].
  - revert H. destruct (Qis_neg q); apply no_line_feed_check; reflexivity.
  - revert H. apply digits_fuel_no_line_feed. intros [].
  - destruct (_ =? 0) in H; [destruct H|].
    rewrite in_app_iff in H. destruct H as [H|H].
    + revert H. apply no_line_feed_check. reflexivity.
    + exact (frac_digits_no_line_feed _ _ _ H).
Qed.

Lemma join_no_line_feed sep l :
  ~ In line_feed sep -> (forall x, In x l -> ~ In line_feed x) ->
  ~ In line_feed (join sep l).
Proof.
  intros Hsep. induction l as [|x l IH]; intros Hl; simpl; [tauto|].
  destruct l as [|y l']; [apply Hl; left; reflexivity|].
  rewrite !in_app_iff. intros [H|[H|H]].
  - exact (Hl x (or_introl eq_refl) H).
  - exact (Hsep H).
  - revert H. apply IH. intros z Hz. apply Hl. right. exact Hz.
Qed.

Lemma lines_go_no_line_feed s : forall cur,
  ~ In line_feed s -> lines_go cur s = [rev cur ++ s].
Proof.
  induction s as [|c s IH]; intros cur Hs; simpl.
  - now rewrite app_nil_r.
  - destruct (c =? line_feed)%N eqn:E.
    + apply N.eqb_eq in E. exfalso. apply Hs. left. exact E.
    + rewrite IH by (intros H; apply Hs; right; exact H).
      simpl. now rewrite <- app_assoc.
Qed.

(** Whatever the session, the header comes first, in the order of the
    specification, and the file has a single row: nothing in it is a
    line feed, unless the date has one. *)
Lemma downloadReport_one_row date s :
  ~ In line_feed date ->
  (exists values,
     downloadReport date s =
       js "date,duration_seconds,characters,words,wpm_gross,wpm_net,accuracy_percent,keystrokes,backspaces,timer_minutes"
         ++ backslash_n ++ values ++ backslash_n) /\
  lines (downloadReport date s) = [downloadReport date s].
Proof.
  intros Hd. split.
  - eexists. unfold downloadReport. reflexivity.
  - unfold lines. rewrite lines_go_no_line_feed; [reflexivity|].
    unfold downloadReport. cbv zeta. rewrite !in_app_iff.
    assert (Hbn : ~ In line_feed backslash_n).
    { apply no_line_feed_check. reflexivity. }
    intros [H|[H|[H|H]]]; try exact (Hbn H).
    + revert H. apply no_line_feed_check. vm_compute. reflexivity.
    + revert H. apply join_no_line_feed.
      * apply no_line_feed_check. reflexivity.
      * intros x Hx. unfold report_row in Hx. cbn [map snd value_toString In] in Hx.
        repeat (destruct Hx as [<-|Hx]; [first [exact Hd | apply toString_no_line_feed]|]).
        destruct Hx.
Qed.

End Report.

(** C4, evaluated on the code.  For the session of the specification's
    example (eleven characters, eleven keystrokes, one minute) the file is
    the header, a backslash and the letter n, the ten values in the order of
    the header, and again a backslash and the letter n: it holds no line
    feed, so it is one row, not a header row and a data row. *)
Theorem downloadReport_writes_backslash_n :
  downloadReport (js "2026-01-01T00:00:00.000Z") hello_session
  = js "date,duration_seconds,characters,words,wpm_gross,wpm_net,accuracy_percent,keystrokes,backspaces,timer_minutes\n2026-01-01T00:00:00.000Z,60,11,2,2.2,2.2,100,11,0,1\n"
  /\ ~ In line_feed (downloadReport (js "2026-01-01T00:00:00.000Z") hello_session)
  /\ List.length (lines (downloadReport (js "2026-01-01T00:00:00.000Z") hello_session)) = 1%nat.
Proof.
  split; [vm_compute; reflexivity|].
  split; [|vm_compute; reflexivity].
  apply no_line_feed_check. vm_compute. reflexivity.
Qed.

(** * Further properties of the component *)

(** *** Formatted times *)

Section FormatTime.

Lemma Qfloor_div_Z a b : 0 < b -> Qfloor (inject_Z a / inject_Z b) = a / b.
Proof.
  intros Hb. destruct b as [|p|p]; try lia.
  unfold Qdiv, Qinv, inject_Z. simpl. rewrite Z.mul_1_r. reflexivity.
Qed.

(** The string of an integer-valued number. *)
Lemma toString_integer q z :
  Qden q = 1%positive -> Qnum q = z -> 0 <= z -> toString (Fin q) = digits z.
Proof.
  intros Hd Hn Hz. unfold toString, Qis_neg. rewrite Hd, Hn.
  destruct (z <? 0) eqn:E; [apply Z.ltb_lt in E; lia|].
  rewrite Z.abs_eq by lia. rewrite Z.div_1_r, Z.mod_1_r. simpl.
  rewrite app_nil_r. reflexivity.
Qed.

Lemma toString_num_nonneg z : 0 <= z -> toString (num z) = digits z.
Proof. intros Hz. apply toString_integer; [reflexivity | reflexivity | exact Hz]. Qed.

Lemma digits_one n : 0 <= n < 10 -> digits n = [digit n].
Proof.
  intros Hn. unfold digits. simpl digits_fuel.
  rewrite Z.mod_small by lia. rewrite Z.div_small by lia. reflexivity.
Qed.

Lemma digits_two n : 10 <= n < 100 -> digits n = [digit (n / 10); digit (n mod 10)].
Proof.
  intros Hn. unfold digits.
  assert (Hl : 3 <= Z.log2 n) by (apply (Z.log2_le_mono 8 n); lia).
  destruct (Z.to_nat (Z.log2 n)) as [|f] eqn:Ef; [lia|].
  simpl digits_fuel.
  assert (H1 : (n / 10 =? 0) = false) by (apply Z.eqb_neq; intros H; 
    pose proof (Z.div_le_lower_bound n 10 1); lia).
  rewrite H1.
  assert (H2 : 0 <= n / 10 < 10).
  { split; [apply Z.div_pos; lia | apply Z.div_lt_upper_bound; lia]. }
  rewrite (Z.mod_small (n / 10)) by lia. rewrite (Z.div_small (n / 10)) by lia.
  reflexivity.
Qed.

(** Padding to two places a number below one hundred. *)
Lemma padStart_digits n :
  0 <= n < 100 ->
  padStart 2 (js "0") (digits n) = [digit (n / 10); digit (n mod 10)].
Proof.
  intros Hn. destruct (Z.lt_ge_cases n 10) as [Hs|Hb].
  - rewrite digits_one by lia. rewrite Z.div_small, Z.mod_small by lia. reflexivity.
  - rewrite digits_two by lia. reflexivity.
Qed.

Lemma div_num a b :
  b <> 0 -> div (num a) (num b) = Fin (inject_Z a / inject_Z b).
Proof.
  intros Hb. unfold div, num, Qis_zero. simpl Qnum.
  destruct (b =? 0) eqn:E; [apply Z.eqb_eq in E; contradiction | reflexivity].
Qed.

Lemma floor_div_num a b :
  0 < b -> Math_floor (div (num a) (num b)) = num (a / b).
Proof.
  intros Hb. rewrite div_num by lia. unfold Math_floor.
  rewrite Qfloor_div_Z by lia. reflexivity.
Qed.

Lemma formatTime_parts ms :
  formatTime (num ms)
  = padStart 2 (js "0") (toString (num (ms / 1000 / 60)))
      ++ js ":" ++ padStart 2 (js "0") (toString (rem (num (ms / 1000)) (num 60))).
Proof.
  unfold formatTime. cbv zeta.
  rewrite (floor_div_num ms 1000) by lia.
  rewrite (floor_div_num (ms / 1000) 60) by lia. reflexivity.
Qed.

Lemma rem_60_nonneg a :
  0 <= a -> toString (rem (num a) (num 60)) = digits (a mod 60).
Proof.
  intros Ha. unfold rem, num.
  change (Qis_zero (inject_Z 60)) with false. cbv iota. unfold Qtrunc.
  assert (Hneg : Qis_neg (inject_Z a / inject_Z 60) = false).
  { unfold Qis_neg, Qdiv, Qinv, inject_Z. simpl. apply Z.ltb_ge. lia. }
  rewrite Hneg, Qfloor_div_Z by lia.
  apply toString_integer.
  - reflexivity.
  - unfold Qminus, Qplus, Qopp, Qmult, inject_Z. cbn [Qnum Qden].
    change (Z.pos (1 * 1)) with 1. rewrite (Z.mod_eq a 60) by lia. ring.
  - apply Z.mod_pos_bound. lia.
Qed.

(** The two parts of a time below one hundred minutes. *)
Lemma formatTime_two_digits (ms : Z) :
  0 <= ms < 6000000 -> formatTime (num ms) = mmss ms.
Proof.
  intros Hms. rewrite formatTime_parts.
  assert (Hs : 0 <= ms / 1000) by (apply Z.div_pos; lia).
  assert (Hm : 0 <= ms / 1000 / 60 < 100).
  { split; [apply Z.div_pos; lia|].
    apply Z.div_lt_upper_bound; [lia|]. apply Z.div_lt_upper_bound; lia. }
  rewrite toString_num_nonneg by lia.
  rewrite rem_60_nonneg by exact Hs.
  rewrite (padStart_digits (ms / 1000 / 60)) by lia.
  rewrite (padStart_digits ((ms / 1000) mod 60))
    by (pose proof (Z.mod_pos_bound (ms / 1000) 60); lia).
  replace (ms / 1000 / 60) with (ms / 60000) by (rewrite Z.div_div by lia; reflexivity).
  reflexivity.
Qed.

End FormatTime.

(** X1.  Below one hundred minutes a time that is not negative is printed
    as two digits of minutes, a colon and two digits of seconds, the
    milliseconds being dropped. *)
Theorem formatTime_mmss (ms : Z) :
  0 <= ms < 6000000 -> formatTime (num ms) = mmss ms.
Proof.
  intros Hms. apply formatTime_two_digits. exact Hms.
Qed.

Lemma formatTime_mmss_witness :
  0 <= 125000 < 6000000 /\ formatTime (num 125000) = mmss 125000.
Proof.
  split; [lia | apply (formatTime_mmss 125000); lia].
Defined.

(** X2.  A negative time of less than a minute is not printed in that
    shape: the minutes read [-1]. *)
Theorem formatTime_negative (ms : Z) :
  -60000 <= ms < 0 -> exists rest, formatTime (num ms) = js "-1:" ++ rest.
Proof.
  intros Hms. rewrite formatTime_parts.
  assert (Hm : ms / 1000 / 60 = -1).
  { rewrite Z.div_div by lia. symmetry. apply (Z.div_unique ms 60000 (-1) (ms + 60000)); lia. }
  rewrite Hm. eexists. reflexivity.
Qed.

Lemma formatTime_negative_witness :
  -60000 <= -5000 < 0 /\ exists rest, formatTime (num (-5000)) = js "-1:" ++ rest.
Proof.
  split; [lia | apply (formatTime_negative (-5000)); lia].
Defined.

(** *** Elapsed time *)

(** X3.  Read with the current clock, the elapsed time of a session whose
    clock never went back is not negative; while the session is stopped it
    is the accumulated time, whatever the clock reads. *)
Theorem getActiveElapsedMs_nonneg (t0 : Z) (ops : list Op) (ts : Z) :
  chrono t0 ops -> last_time t0 ops <= ts ->
  let s := run ops (initialState t0) in
  0 <= getActiveElapsedMs ts s /\
  (isRunning s = false -> getActiveElapsedMs ts s = accumulatedMs s).
Proof.
  intros Hc Hts s.
  assert (Hs : clock_inv (last_time t0 ops) s).
  { apply run_clock; [apply clock_inv_initial | exact Hc]. }
  destruct Hs as [Hl Ha]. unfold getActiveElapsedMs, activeElapsedMs. simpl.
  split.
  - destruct (isRunning s); simpl; [|lia].
    destruct (lastStart s) as [x|]; simpl; [|lia].
    specialize (Hl x eq_refl). destruct (x =? 0); simpl; lia.
  - intros ->. simpl. lia.
Qed.

Lemma getActiveElapsedMs_nonneg_witness :
  chrono 0 [OnTextChanged 1000 (js "a")] /\ last_time 0 [OnTextChanged 1000 (js "a")] <= 1500 /\
  0 <= getActiveElapsedMs 1500 (run [OnTextChanged 1000 (js "a")] (initialState 0)).
Proof.
  assert (Hc : chrono 0 [OnTextChanged 1000 (js "a")]).
  { simpl. unfold clock_after; simpl. lia. }
  assert (Ht : last_time 0 [OnTextChanged 1000 (js "a")] <= 1500).
  { unfold last_time, clock_after; simpl. lia. }
  split; [exact Hc|]. split; [exact Ht|].
  apply (getActiveElapsedMs_nonneg 0 [OnTextChanged 1000 (js "a")] 1500 Hc Ht).
Defined.

(** X4.  The render that follows the first text change still holds the
    reading of the clock taken at mount: until the interval fires, the
    elapsed time is that reading minus the time of the change, a negative
    number, and the gross WPM is 0. *)
Theorem elapsed_negative_before_first_tick (t0 ts : Z) (v : jsstring) :
  v <> [] -> 0 <= t0 < ts ->
  let s := handleChange ts v (initialState t0) in
  isRunning s = true /\ activeElapsedMs s = t0 - ts /\ activeElapsedMs s < 0 /\
  wpmGross (stats s) = num 0.
Proof.
  intros Hv Ht s.
  assert (Hs : s = mkState dark v true (Some ts) (Some ts) 0 t0 0%N 0%N 0).
  { unfold s, handleChange. rewrite str_length_pos.
    destruct v; [congruence | reflexivity]. }
  assert (He : activeElapsedMs s = t0 - ts).
  { rewrite Hs. unfold activeElapsedMs. simpl.
    destruct (ts =? 0) eqn:E; [apply Z.eqb_eq in E; lia|]. simpl. lia. }
  split; [rewrite Hs; reflexivity|].
  split; [exact He|]. split; [lia|].
  unfold stats. cbv beta zeta. cbn [wpmGross].
  assert (Hg : gt (elapsedMinutes s) (num 0) = false).
  { unfold elapsedMinutes. rewrite He.
    unfold gt, lt, div, num, Qis_zero, Qlt_bool. simpl Qnum. cbv iota.
    apply negb_false_iff. apply Qle_bool_iff.
    unfold Qle, Qdiv, Qinv, Qmult, inject_Z. simpl. lia. }
  rewrite Hg. reflexivity.
Qed.

Lemma elapsed_negative_before_first_tick_witness :
  activeElapsedMs (handleChange 5000 (js "a") (initialState 0)) = -5000.
Proof.
  destruct (elapsed_negative_before_first_tick 0 5000 (js "a")) as (_ & He & _);
    [discriminate | lia | exact He].
Defined.

(** *** Pause and resume *)

(** X5.  A pause freezes the elapsed time: whatever the clock reads
    afterwards, the elapsed time is the one read at the time of the pause. *)
Theorem pause_freezes_elapsed (ts ts' : Z) (s : State) :
  isRunning s = true -> truthy (lastStart s) = true ->
  getActiveElapsedMs ts' (pauseResume ts s) = getActiveElapsedMs ts s.
Proof.
  intros Hr Hl. unfold getActiveElapsedMs, activeElapsedMs, pauseResume, updAccumulatedMs.
  rewrite Hr, Hl. simpl. rewrite Hr, Hl. simpl. lia.
Qed.

Lemma pause_freezes_elapsed_witness :
  getActiveElapsedMs 9000 (pauseResume 4000 timed_session) = getActiveElapsedMs 4000 timed_session.
Proof.
  apply (pause_freezes_elapsed 4000 9000 timed_session); reflexivity.
Defined.

(** X6.  Resuming a stopped session at [t1] and pausing it at [t2] adds
    exactly [t2 - t1] to the accumulated time and leaves the session
    stopped; done at one and the same time, the two change nothing but
    [startedAt], which is set if it was not. *)
Theorem resume_then_pause (t1 t2 : Z) (s : State) :
  isRunning s = false -> t1 <> 0 ->
  let s' := pauseResume t2 (pauseResume t1 s) in
  accumulatedMs s' = accumulatedMs s + (t2 - t1) /\
  isRunning s' = false /\ lastStart s' = None /\
  (lastStart s = None -> t2 = t1 -> startedAt s <> None -> s' = s).
Proof.
  intros Hr Ht. destruct s as [th tx r sa ls acc nw tk bs tm]. simpl in Hr. subst r.
  unfold pauseResume, updAccumulatedMs. simpl.
  assert (E : (t1 =? 0) = false) by (apply Z.eqb_neq; exact Ht).
  destruct sa as [a|]; simpl; rewrite E; simpl; repeat split.
  - intros -> -> _.
    unfold setLastStart, setIsRunning, setAccumulatedMs; simpl. f_equal. lia.
  - intros _ _ H. congruence.
Qed.

Lemma resume_then_pause_witness :
  accumulatedMs (pauseResume 3000 (pauseResume 2000 paused_session))
  = accumulatedMs paused_session + (3000 - 2000).
Proof.
  destruct (resume_then_pause 2000 3000 paused_session) as (H & _);
    [reflexivity | lia | exact H].
Defined.

(** X7.  The time of the first start is kept: once [startedAt] is set, no
    sequence of operations without a reset changes it. *)
Theorem startedAt_kept (t : Z) (ops : list Op) (s : State) :
  startedAt s = Some t -> no_reset ops = true -> startedAt (run ops s) = Some t.
Proof.
  revert s. induction ops as [|o ops IH]; intros s Hs Hn; simpl in *; [exact Hs|].
  apply andb_true_iff in Hn. destruct Hn as [Ho Hn].
  apply IH; [|exact Hn]. clear IH Hn.
  destruct o as [ts v|key|ts|ts|ts|ts|n|th|ts]; simpl in *; try discriminate.
  - unfold handleChange, startIfNeeded. rewrite Hs. simpl.
    destruct (0 <? str_length v), (isRunning s); simpl; exact Hs.
  - unfold handleKeyDown.
    destruct (isPrintable key), (jsstring_eqb key (js "Backspace")); exact Hs.
  - unfold startIfNeeded. rewrite Hs. simpl. destruct (isRunning s); exact Hs.
  - unfold pause, pauseResume, updAccumulatedMs. rewrite Hs.
    destruct (isRunning s), (truthy (lastStart s)); exact Hs.
  - unfold pauseResume, updAccumulatedMs. rewrite Hs.
    destruct (isRunning s), (truthy (lastStart s)); exact Hs.
  - exact Hs.
  - exact Hs.
  - unfold checkTimerExpiry, timerExpiryEffect, tick.
    destruct (isRunning s); simpl;
      repeat match goal with |- context [if ?b then _ else _] => destruct b end;
      exact Hs.
Qed.

Lemma startedAt_kept_witness :
  startedAt (run [ToggleRunning 2000; OnTextChanged 3000 (js "ab")] paused_session) = Some 1000.
Proof.
  apply (startedAt_kept 1000 [ToggleRunning 2000; OnTextChanged 3000 (js "ab")] paused_session);
    reflexivity.
Defined.

(** *** Keystroke counters *)

Lemma apply_op_counters o s :
  (backspaces s <= totalKeystrokes s)%N ->
  (backspaces (apply_op o s) <= totalKeystrokes (apply_op o s))%N.
Proof.
  intros H. destruct o as [ts v|key|ts|ts|ts|ts|n|th|ts]; simpl.
  - unfold handleChange, startIfNeeded.
    repeat match goal with |- context [if ?b then _ else _] => destruct b end; exact H.
  - unfold handleKeyDown, updTotalKeystrokes, updBackspaces.
    destruct (isPrintable key), (jsstring_eqb key (js "Backspace")); simpl; lia.
  - unfold startIfNeeded.
    repeat match goal with |- context [if ?b then _ else _] => destruct b end; exact H.
  - unfold pause, pauseResume, updAccumulatedMs.
    repeat match goal with |- context [if ?b then _ else _] => destruct b end; exact H.
  - unfold pauseResume, updAccumulatedMs.
    repeat match goal with |- context [if ?b then _ else _] => destruct b end; exact H.
  - lia.
  - exact H.
  - exact H.
  - unfold checkTimerExpiry, timerExpiryEffect, tick.
    destruct (isRunning s); simpl;
      repeat match goal with |- context [if ?b then _ else _] => destruct b end;
      exact H.
Qed.

(** X8.  In every state reached from the initial one the backspaces are
    part of the keystrokes: [backspaces <= totalKeystrokes]. *)
Theorem backspaces_le_totalKeystrokes (t0 : Z) (ops : list Op) :
  (backspaces (run ops (initialState t0)) <= totalKeystrokes (run ops (initialState t0)))%N.
Proof.
  unfold run.
  assert (H0 : (backspaces (initialState t0) <= totalKeystrokes (initialState t0))%N)
    by (simpl; lia).
  revert H0. generalize (initialState t0) as s.
  induction ops as [|o ops IH]; intros s Hs; simpl; [exact Hs|].
  apply IH, apply_op_counters, Hs.
Qed.

(** X9.  A key event and a text change commute: the state after both does
    not depend on which of the two handlers ran first. *)
Theorem handleKeyDown_handleChange_commute (key : jsstring) (ts : Z) (v : jsstring) (s : State) :
  handleKeyDown key (handleChange ts v s) = handleChange ts v (handleKeyDown key s).
Proof.
  unfold handleKeyDown, handleChange, startIfNeeded, updTotalKeystrokes, updBackspaces.
  destruct s as [th tx r sa ls acc nw tk bs tm]; simpl.
  destruct (isPrintable key), (jsstring_eqb key (js "Backspace")),
    (0 <? str_length v), sa, r; reflexivity.
Qed.

(** X10.  [startIfNeeded] is idempotent: a second call, at whatever time,
    changes nothing, so [lastStart] and [startedAt] keep the first time. *)
Theorem startIfNeeded_idempotent (t1 t2 : Z) (s : State) :
  startIfNeeded t2 (startIfNeeded t1 s) = startIfNeeded t1 s.
Proof.
  unfold startIfNeeded. destruct s as [th tx r sa ls acc nw tk bs tm]; simpl.
  destruct sa, r; reflexivity.
Qed.

(** *** Speed *)

Section Speed.

Local Open Scope Q_scope.

Lemma Qis_zero_pos (e : Q) : 0 < e -> Qis_zero e = false.
Proof.
  unfold Qlt, Qis_zero. simpl. intros H. apply Z.eqb_neq. lia.
Qed.

Lemma str_length_nonneg (v : jsstring) : (0 <= str_length v)%Z.
Proof. unfold str_length. lia. Qed.

Lemma inject_Z_nonneg (z : Z) : (0 <= z)%Z -> 0 <= inject_Z z.
Proof. intros H. unfold Qle. simpl. lia. Qed.

Lemma elapsedMinutes_value s :
  elapsedMinutes s = Fin (inject_Z (activeElapsedMs s) / inject_Z 60000).
Proof. unfold elapsedMinutes. apply div_num. discriminate. Qed.

Lemma minutes_pos_iff (ms : Z) :
  0 < inject_Z ms / inject_Z 60000 <-> (0 < ms)%Z.
Proof.
  unfold Qlt, Qdiv, Qinv, Qmult, inject_Z. simpl. lia.
Qed.

(** The gross WPM before the [Number.isFinite] test. *)
Lemma gross_raw s :
  exists g,
    (if gt (elapsedMinutes s) (num 0)
     then div (div (num (str_length (text s))) (num 5)) (elapsedMinutes s)
     else num 0) = Fin g /\
    0 <= g /\
    ((activeElapsedMs s <= 0)%Z -> g == 0) /\
    ((0 < activeElapsedMs s)%Z ->
       g == inject_Z (12000 * str_length (text s)) / inject_Z (activeElapsedMs s)).
Proof.
  rewrite elapsedMinutes_value.
  set (ms := activeElapsedMs s). set (c := str_length (text s)).
  assert (Hc : 0 <= inject_Z c) by apply inject_Z_nonneg, str_length_nonneg.
  unfold gt, lt, num. unfold Qlt_bool.
  destruct (Qle_bool (inject_Z ms / inject_Z 60000) (inject_Z 0)) eqn:E; simpl negb; cbv iota.
  - apply Qle_bool_iff in E. exists (inject_Z 0). split; [reflexivity|].
    split; [apply Qle_refl|]. split; [reflexivity|].
    intros Hms. apply minutes_pos_iff in Hms.
    exfalso. apply (Qlt_not_le _ _ Hms). exact E.
  - apply Qle_bool_false in E. change (inject_Z 0) with 0 in E.
    pose proof (proj1 (minutes_pos_iff ms) E) as Hms.
    change (Fin (inject_Z c)) with (num c). change (Fin (inject_Z 5)) with (num 5).
    rewrite (div_num c 5) by discriminate.
    unfold div. rewrite (Qis_zero_pos _ E).
    eexists. split; [reflexivity|]. split; [|split].
    + apply Qle_shift_div_l; [exact E|]. rewrite Qmult_0_l.
      apply Qle_shift_div_l; [reflexivity|]. rewrite Qmult_0_l. exact Hc.
    + intros H. lia.
    + intros _. rewrite inject_Z_mult.
      assert (Hnz : ~ inject_Z ms == 0).
      { intros H. unfold Qeq in H. simpl in H. lia. }
      field. exact Hnz.
Qed.

(** The accuracy before the clamp. *)
Lemma accuracy_raw s :
  exists a,
    (if (0 <? totalKeystrokes s)%N
     then mul (div (num (str_length (text s))) (num (Z.of_N (totalKeystrokes s)))) (num 100)
     else num 100) = Fin a /\
    0 <= a /\
    (totalKeystrokes s = 0%N \/ (str_length (text s) <= Z.of_N (totalKeystrokes s))%Z ->
     a <= 100).
Proof.
  destruct (0 <? totalKeystrokes s)%N eqn:Ek.
  - apply N.ltb_lt in Ek. rewrite raw_accuracy_finite by exact Ek.
    set (c := str_length (text s)). set (k := Z.of_N (totalKeystrokes s)).
    assert (Hk : 0 < inject_Z k) by (unfold Qlt; simpl; lia).
    assert (Hc : 0 <= inject_Z c) by apply inject_Z_nonneg, str_length_nonneg.
    eexists. split; [reflexivity|]. split.
    + apply Qmult_le_0_compat; [|discriminate].
      apply Qle_shift_div_l; [exact Hk|]. rewrite Qmult_0_l. exact Hc.
    + intros [H|H]; [lia|].
      assert (Hq : inject_Z c / inject_Z k <= 1).
      { apply Qle_shift_div_r; [exact Hk|]. rewrite Qmult_1_l.
        rewrite <- Zle_Qle. exact H. }
      change (inject_Z 100) with 100.
      setoid_replace 100 with (1 * 100) at 2 by reflexivity.
      apply Qmult_le_compat_r; [exact Hq | discriminate].
  - exists 100. split; [reflexivity|]. split; discriminate.
Qed.

(** The guard of the gross WPM is a test on the elapsed milliseconds. *)
Lemma gt_elapsedMinutes s :
  gt (elapsedMinutes s) (num 0) = (0 <? activeElapsedMs s)%Z.
Proof.
  rewrite elapsedMinutes_value. unfold gt, lt, num, Qlt_bool.
  destruct (0 <? activeElapsedMs s)%Z eqn:E.
  - apply Z.ltb_lt in E. apply minutes_pos_iff in E.
    apply negb_true_iff.
    destruct (Qle_bool (inject_Z (activeElapsedMs s) / inject_Z 60000) (inject_Z 0)) eqn:El;
      [|reflexivity].
    apply Qle_bool_iff in El. exfalso. apply (Qlt_not_le _ _ E). exact El.
  - apply Z.ltb_ge in E. apply negb_false_iff. apply Qle_bool_iff.
    apply Qnot_lt_le. intros H.
    apply (proj1 (minutes_pos_iff (activeElapsedMs s))) in H.
    apply (Z.lt_irrefl 0). apply Z.lt_le_trans with (activeElapsedMs s); assumption.
Qed.

(** The sign of the accuracy before the clamp: it is positive as soon as
    the text is not empty. *)
Lemma accuracy_raw_sign s :
  exists a,
    (if (0 <? totalKeystrokes s)%N
     then mul (div (num (str_length (text s))) (num (Z.of_N (totalKeystrokes s)))) (num 100)
     else num 100) = Fin a /\
    0 <= a /\ ((0 < str_length (text s))%Z -> 0 < a).
Proof.
  destruct (0 <? totalKeystrokes s)%N eqn:Ek.
  - apply N.ltb_lt in Ek. rewrite raw_accuracy_finite by exact Ek.
    set (c := str_length (text s)). set (k := Z.of_N (totalKeystrokes s)).
    assert (Hk : 0 < inject_Z k) by (unfold Qlt; simpl; lia).
    assert (Hc : 0 <= inject_Z c) by apply inject_Z_nonneg, str_length_nonneg.
    eexists. split; [reflexivity|]. split.
    + apply Qmult_le_0_compat; [|discriminate].
      apply Qle_shift_div_l; [exact Hk|]. rewrite Qmult_0_l. exact Hc.
    + intros Hpos.
      apply Qmult_lt_0_compat; [|reflexivity].
      apply Qlt_shift_div_l; [exact Hk|]. rewrite Qmult_0_l.
      change 0 with (inject_Z 0). rewrite <- Zlt_Qlt. exact Hpos.
  - exists 100. split; [reflexivity|]. split; [discriminate|]. intros _. reflexivity.
Qed.

(** The sign of the gross WPM. *)
Lemma gross_raw_sign s g :
  0 <= g ->
  ((activeElapsedMs s <= 0)%Z -> g == 0) ->
  ((0 < activeElapsedMs s)%Z ->
     g == inject_Z (12000 * str_length (text s)) / inject_Z (activeElapsedMs s)) ->
  (0 < g <-> (0 < activeElapsedMs s)%Z /\ (0 < str_length (text s))%Z).
Proof.
  intros Hg0 Hz Hp. split.
  - intros Hg. destruct (Z.lt_ge_cases 0 (activeElapsedMs s)) as [Hms|Hms].
    + split; [exact Hms|].
      destruct (Z.lt_ge_cases 0 (str_length (text s))) as [Hc|Hc]; [exact Hc|].
      exfalso. pose proof (str_length_nonneg (text s)) as Hc0.
      assert (Hc' : str_length (text s) = 0%Z) by (apply Z.le_antisymm; assumption).
      specialize (Hp Hms). rewrite Hc' in Hp.
      change (inject_Z (12000 * 0)) with 0 in Hp.
      unfold Qdiv in Hp. rewrite Qmult_0_l in Hp.
      rewrite Hp in Hg. discriminate Hg.
    + exfalso. rewrite (Hz Hms) in Hg. discriminate Hg.
  - intros [Hms Hc]. rewrite (Hp Hms).
    apply Qlt_shift_div_l.
    + change 0 with (inject_Z 0). rewrite <- Zlt_Qlt. exact Hms.
    + rewrite Qmult_0_l. change 0 with (inject_Z 0). rewrite <- Zlt_Qlt.
      apply Z.mul_pos_pos; [reflexivity | exact Hc].
Qed.

End Speed.

(** X11.  The speeds that [stats] returns are always finite and not
    negative, so the [Number.isFinite] fallback is never what decides them:
    the gross WPM is the quotient the source writes when some time has
    elapsed and 0 otherwise; it is positive exactly when time has elapsed
    and the text is not empty, and the net WPM is positive exactly when the
    gross WPM is. *)
Theorem stats_speeds_finite (s : State) :
  exists g n : Q,
    wpmGross (stats s) = Fin g /\ netWpm (stats s) = Fin n /\
    (0 <= g)%Q /\ (0 <= n)%Q /\
    wpmGross (stats s)
      = (if 0 <? activeElapsedMs s
         then div (div (num (chars (stats s))) (num 5))
                  (div (num (activeElapsedMs s)) (num 60000))
         else num 0) /\
    ((0 < g)%Q <-> 0 < activeElapsedMs s /\ 0 < chars (stats s)) /\
    ((0 < n)%Q <-> (0 < g)%Q).
Proof.
  destruct (gross_raw s) as (g & Hg & Hg0 & Hz & Hp).
  destruct (accuracy_raw_sign s) as (a & Ha & Ha0 & Hapos).
  pose proof (gross_raw_sign s g Hg0 Hz Hp) as Hsign.
  exists g, (g * (a / inject_Z 100))%Q.
  assert (Hw : wpmGross (stats s) = Fin g).
  { unfold stats. cbv beta zeta. cbn [wpmGross]. rewrite Hg. reflexivity. }
  split; [exact Hw|]. split.
  { unfold stats. cbv beta zeta. cbn [netWpm]. rewrite Hg, Ha. reflexivity. }
  split; [exact Hg0|].
  assert (Hdiv : forall x : Q, (0 < x -> 0 < x / inject_Z 100)%Q).
  { intros x Hx. apply Qlt_shift_div_l; [reflexivity|]. rewrite Qmult_0_l. exact Hx. }
  split; [|split; [|split]].
  - apply Qmult_le_0_compat; [exact Hg0|].
    apply Qle_shift_div_l; [reflexivity|]. rewrite Qmult_0_l. exact Ha0.
  - rewrite Hw, <- Hg, gt_elapsedMinutes. reflexivity.
  - exact Hsign.
  - split.
    + intros Hn. destruct (Qlt_le_dec 0 g) as [H|H]; [exact H|].
      exfalso. assert (Hg' : (g == 0)%Q) by (apply Qle_antisym; assumption).
      rewrite Hg', Qmult_0_l in Hn. discriminate Hn.
    + intros Hgp. apply Qmult_lt_0_compat; [exact Hgp|].
      apply Hdiv, Hapos. apply Hsign. exact Hgp.
Qed.

(** X12.  The net WPM is never below the gross WPM times the returned
    accuracy over 100, and it is equal to it whenever the text has no more
    characters than keystrokes were counted, or no keystroke was counted. *)
Theorem netWpm_vs_accuracy (s : State) :
  exists g q n : Q,
    wpmGross (stats s) = Fin g /\ accuracy (stats s) = Fin q /\ netWpm (stats s) = Fin n /\
    (g * (q / 100) <= n)%Q /\
    (totalKeystrokes s = 0%N \/ str_length (text s) <= Z.of_N (totalKeystrokes s) ->
     (n == g * (q / 100))%Q).
Proof.
  destruct (gross_raw s) as (g & Hg & Hg0 & _).
  destruct (accuracy_raw s) as (a & Ha & Ha0 & Ha100).
  destruct (clamp_spec a) as (q & Hq & Hqa & Hq0 & Hq100).
  exists g, q, (g * (a / inject_Z 100))%Q.
  unfold stats. cbv beta zeta. cbn [wpmGross netWpm accuracy].
  rewrite Hg, Ha, Hq. simpl isFinite. cbv iota.
  split; [reflexivity|]. split; [reflexivity|]. split; [reflexivity|].
  assert (Hle : (q <= a)%Q).
  { rewrite Hqa. rewrite (Q.max_r 0 a) by exact Ha0. apply Q.le_min_r. }
  split.
  - change (inject_Z 100) with 100%Q.
    rewrite (Qmult_comm g (q / 100)), (Qmult_comm g (a / 100)).
    apply Qmult_le_compat_r; [|exact Hg0].
    unfold Qdiv. apply Qmult_le_compat_r; [exact Hle | discriminate].
  - intros H. specialize (Ha100 H).
    assert (Heq : (q == a)%Q).
    { rewrite Hqa. rewrite (Q.max_r 0 a) by exact Ha0. apply Q.min_r. exact Ha100. }
    change (inject_Z 100) with 100%Q. rewrite Heq. reflexivity.
Qed.

Lemma netWpm_vs_accuracy_witness :
  exists g q n : Q,
    wpmGross (stats hello_session) = Fin g /\ accuracy (stats hello_session) = Fin q /\
    netWpm (stats hello_session) = Fin n /\ (n == g * (q / 100))%Q.
Proof.
  destruct (netWpm_vs_accuracy hello_session) as (g & q & n & Hg & Hq & Hn & _ & Heq).
  exists g, q, n. split; [exact Hg|]. split; [exact Hq|]. split; [exact Hn|].
  apply Heq. right. vm_compute. discriminate.
Defined.

(** *** The countdown *)

Section Countdown.

Lemma Math_max_0_num (d : Z) : Math_max (num 0) (num d) = num (Z.max 0 d).
Proof.
  unfold Math_max, lt, num, Qlt_bool. simpl isNaN. cbv iota. simpl orb. cbv iota.
  destruct (Qle_bool (inject_Z d) (inject_Z 0)) eqn:E; simpl negb; cbv iota.
  - apply Qle_bool_iff in E. rewrite <- Zle_Qle in E.
    rewrite Z.max_l by lia. reflexivity.
  - assert (H : ~ (d <= 0)%Z).
    { intros H. rewrite Zle_Qle in H. apply Qle_bool_iff in H. congruence. }
    rewrite Z.max_r by lia. reflexivity.
Qed.

Lemma remainingMs_value s :
  remainingMs s =
    num (if timerEnabled s then Z.max 0 (timerMs s - activeElapsedMs s) else 0).
Proof.
  unfold remainingMs. destruct (timerEnabled s); [apply Math_max_0_num | reflexivity].
Qed.

Lemma num_inj (a b : Z) : num a = num b -> a = b.
Proof. unfold num, inject_Z. intros H. injection H. auto. Qed.

Lemma timerMs_pos s : timerEnabled s = true -> 0 < timerMs s.
Proof.
  unfold timerEnabled, timerMs. intros H. apply Z.ltb_lt in H. lia.
Qed.

(** The ratio of the progress bar against an integer bound. *)
Lemma ratio_lt (e T x : Z) :
  0 < T -> ((inject_Z e / inject_Z T * inject_Z 100 < inject_Z x)%Q <-> e * 100 < x * T).
Proof.
  intros HT. destruct T as [|p|p]; try lia.
  unfold Qlt, Qdiv, Qmult, Qinv, inject_Z. cbn [Qnum Qden]. lia.
Qed.

Lemma ratio_le (e T x : Z) :
  0 < T -> ((inject_Z x <= inject_Z e / inject_Z T * inject_Z 100)%Q <-> x * T <= e * 100).
Proof.
  intros HT. destruct T as [|p|p]; try lia.
  unfold Qle, Qdiv, Qmult, Qinv, inject_Z. cbn [Qnum Qden]. lia.
Qed.

End Countdown.

(** X13.  With the timer on and the session running, the expiry effect
    stops the session exactly when the remaining time shown is zero. *)
Theorem expiry_iff_nothing_remains (s : State) :
  timerEnabled s = true -> isRunning s = true ->
  (isRunning (timerExpiryEffect s) = false <-> remainingMs s = num 0).
Proof.
  intros He Hr. pose proof (timerMs_pos s He) as Hpos.
  rewrite remainingMs_value, He.
  unfold timerExpiryEffect. rewrite He, Hr. simpl negb. cbv iota.
  assert (Hp : (0 <? timerMs s) = true) by (apply Z.ltb_lt; exact Hpos).
  rewrite Hp, andb_true_r.
  destruct (timerMs s <=? activeElapsedMs s) eqn:E.
  - apply Z.leb_le in E. simpl. split; [intros _|reflexivity].
    rewrite Z.max_l by lia. reflexivity.
  - apply Z.leb_gt in E. split.
    + intros H. congruence.
    + intros H. apply num_inj in H. lia.
Qed.

Lemma expiry_iff_nothing_remains_witness :
  isRunning (timerExpiryEffect (tick 61000 timed_session)) = false /\
  remainingMs (tick 61000 timed_session) = num 0.
Proof.
  assert (H := expiry_iff_nothing_remains (tick 61000 timed_session) eq_refl eq_refl).
  split; [apply H|]; reflexivity.
Defined.

(** X14.  The progress is a rational that never exceeds 100; it is 0 with
    the timer off, it is 100 exactly when the elapsed time has reached the
    limit, and it is negative exactly when the elapsed time is. *)
Theorem progress_bounds (s : State) :
  exists q : Q,
    progress s = Fin q /\ (q <= 100)%Q /\
    (if timerEnabled s
     then ((q == 100)%Q <-> timerMs s <= activeElapsedMs s) /\
          ((q < 0)%Q <-> activeElapsedMs s < 0)
     else (q == 0)%Q).
Proof.
  unfold progress. destruct (timerEnabled s) eqn:He.
  - pose proof (timerMs_pos s He) as Hpos.
    assert (Hp : (0 <? timerMs s) = true) by (apply Z.ltb_lt; exact Hpos).
    rewrite Hp. simpl andb. cbv iota.
    rewrite div_num by lia.
    set (e := activeElapsedMs s). set (T := timerMs s) in *.
    unfold mul, Math_min, lt, num, Qlt_bool. simpl isNaN. simpl orb. cbv iota.
    destruct (Qle_bool (inject_Z 100) (inject_Z e / inject_Z T * inject_Z 100)) eqn:E;
      simpl negb; cbv iota.
    + apply Qle_bool_iff in E. apply ratio_le in E; [|exact Hpos].
      exists (inject_Z 100).
      split; [reflexivity|]. split; [apply Qle_refl|].
      split; [split; [intros _; lia | reflexivity]|].
      split; [intros H; discriminate H | lia].
    + apply Qle_bool_false in E. eexists. split; [reflexivity|].
      split; [apply Qlt_le_weak; exact E|].
      pose proof (proj1 (ratio_lt e T 100 Hpos) E) as HeT.
      split.
      * split; [|lia]. intros H. rewrite H in E. discriminate E.
      * change 0%Q with (inject_Z 0). rewrite (ratio_lt e T 0 Hpos). lia.
  - simpl andb. cbv iota. exists (inject_Z 0).
    split; [reflexivity|]. split; [discriminate | reflexivity].
Qed.

(** X15.  With a timer of less than one hundred minutes and an elapsed
    time that is not negative, the remaining time is shown as two digits
    of minutes, a colon and two digits of seconds, counting down from the
    limit and staying at 00:00 once it is reached; with the timer off an
    em dash is shown. *)
Theorem formattedRemaining_shape (s : State) :
  (0 < timerMinutes s < 100 -> 0 <= activeElapsedMs s ->
   formattedRemaining s = mmss (Z.max 0 (timerMs s - activeElapsedMs s))) /\
  (timerMs s <= activeElapsedMs s -> 0 < timerMinutes s ->
   formattedRemaining s = js "00:00") /\
  (timerMinutes s <= 0 -> formattedRemaining s = em_dash).
Proof.
  unfold formattedRemaining. rewrite remainingMs_value.
  unfold timerEnabled, timerMs. repeat split.
  - intros Hm He. destruct (0 <? timerMinutes s) eqn:E; [|apply Z.ltb_ge in E; lia].
    apply formatTime_two_digits. lia.
  - intros Hle Hm. destruct (0 <? timerMinutes s) eqn:E; [|apply Z.ltb_ge in E; lia].
    rewrite Z.max_l by lia. reflexivity.
  - intros Hm. destruct (0 <? timerMinutes s) eqn:E; [apply Z.ltb_lt in E; lia|].
    reflexivity.
Qed.

Lemma formattedRemaining_shape_witness :
  formattedRemaining (tick 31500 timed_session) = js "00:29" /\
  formattedRemaining (tick 61000 timed_session) = js "00:00" /\
  formattedRemaining (initialState 0) = em_dash.
Proof.
  destruct (formattedRemaining_shape (tick 31500 timed_session)) as (H1 & _ & _).
  destruct (formattedRemaining_shape (tick 61000 timed_session)) as (_ & H2 & _).
  destruct (formattedRemaining_shape (initialState 0)) as (_ & _ & H3).
  split; [|split].
  - rewrite H1; [reflexivity | simpl; lia | vm_compute; discriminate].
  - apply H2; [vm_compute; discriminate | simpl; lia].
  - apply H3. simpl. lia.
Defined.

(** *** Words, whatever surrounds them *)

Section Tokens.

Lemma count_tokens_spaces b y :
  forallb is_space y = true -> count_tokens_from b y = O.
Proof.
  revert b. induction y as [|c y IH]; intros b H; simpl in *; [reflexivity|].
  apply andb_true_iff in H. destruct H as [Hc Hy]. rewrite Hc. apply IH, Hy.
Qed.

Lemma count_tokens_app_spaces x : forall b y,
  forallb is_space y = true -> count_tokens_from b (x ++ y) = count_tokens_from b x.
Proof.
  induction x as [|c x IH]; intros b y Hy; simpl.
  - apply count_tokens_spaces, Hy.
  - destruct (is_space c); rewrite IH by exact Hy; reflexivity.
Qed.

Lemma count_tokens_trimStart t :
  count_tokens_from true (trimStart t) = count_tokens_from true t.
Proof.
  unfold trimStart. induction t as [|c t IH]; simpl; [reflexivity|].
  destruct (is_space c) eqn:E; [exact IH|]. simpl. rewrite E. reflexivity.
Qed.

Lemma dropWhile_prefix {A} (p : A -> bool) l :
  exists pre, l = pre ++ dropWhile p l /\ forallb p pre = true.
Proof.
  induction l as [|y l (pre & IH & Hp)]; simpl.
  - exists []. split; reflexivity.
  - destruct (p y) eqn:E.
    + exists (y :: pre). simpl. rewrite E, Hp. split; [now rewrite <- IH | reflexivity].
    + exists []. split; reflexivity.
Qed.

Lemma forallb_rev {A} (p : A -> bool) l : forallb p l = true -> forallb p (rev l) = true.
Proof.
  rewrite !forallb_forall. intros H x Hx. apply H. apply in_rev. exact Hx.
Qed.

Lemma count_tokens_trimEnd b u :
  count_tokens_from b (trimEnd u) = count_tokens_from b u.
Proof.
  unfold trimEnd.
  destruct (dropWhile_prefix is_space (rev u)) as (pre & Hu & Hp).
  assert (H : u = rev (dropWhile is_space (rev u)) ++ rev pre).
  { rewrite <- rev_app_distr, <- Hu, rev_involutive. reflexivity. }
  rewrite H at 2. rewrite count_tokens_app_spaces; [reflexivity|].
  apply forallb_rev, Hp.
Qed.

Lemma count_tokens_trim t : count_tokens (trim t) = count_tokens t.
Proof.
  unfold count_tokens, trim. rewrite count_tokens_trimEnd. apply count_tokens_trimStart.
Qed.

End Tokens.

(** X16.  For every text the word count is the number of maximal runs of
    code units that are not white space: leading and trailing white space,
    and the length of the runs of white space in between, do not count. *)
Theorem words_counts_runs (s : State) :
  words (stats s) = Z.of_nat (count_tokens (text s)).
Proof.
  rewrite <- count_tokens_trim. unfold stats. cbv beta zeta. cbn [words].
  destruct (trim (text s)) as [|c r] eqn:E; [reflexivity|].
  simpl str_truthy. cbv iota. rewrite <- E.
  rewrite split_ws_trimmed; [reflexivity|]. rewrite E. discriminate.
Qed.

(** *** The fields of the report *)

Section Fields.

Lemma digits_fuel_alphabet fuel : forall n acc c,
  (forall x, In x acc -> (45 <= x)%N) ->
  In c (digits_fuel fuel n acc) -> (45 <= c)%N.
Proof.
  induction fuel as [|f IH]; intros n acc c Hacc; simpl; [apply Hacc|].
  assert (H' : forall x, In x (digit (n mod 10) :: acc) -> (45 <= x)%N).
  { intros x [<-|Hx]; [unfold digit; lia | apply Hacc, Hx]. }
  destruct (n / 10 =? 0); [apply H' | apply IH, H'].
Qed.

Lemma frac_digits_alphabet fuel : forall r d c,
  In c (frac_digits fuel r d) -> (45 <= c)%N.
Proof.
  induction fuel as [|f IH]; intros r d c; simpl; [tauto|].
  destruct (r =? 0); simpl; [tauto|].
  intros [<-|H]; [unfold digit; lia | exact (IH _ _ _ H)].
Qed.

Lemma alphabet_check (s : jsstring) c :
  forallb (fun x => (45 <=? x)%N) s = true -> In c s -> (45 <= c)%N.
Proof.
  intros H Hin. rewrite forallb_forall in H. apply N.leb_le. apply H, Hin.
Qed.

(** No code unit of the string of a number comes before the minus sign:
    none is a comma, a quote or a line break. *)
Lemma toString_alphabet n c : In c (toString n) -> (45 <= c)%N.
Proof.
  destruct n as [q| | |]; try (apply alphabet_check; reflexivity).
  unfold toString. rewrite !in_app_iff. intros [H|[H|H]].
  - revert H. destruct (Qis_neg q); apply alphabet_check; reflexivity.
  - revert H. apply digits_fuel_alphabet. intros x [].
  - destruct (_ =? 0) in H; [destruct H|].
    rewrite in_app_iff in H. destruct H as [H|H].
    + revert H. apply alphabet_check. reflexivity.
    + exact (frac_digits_alphabet _ _ _ _ H).
Qed.

Lemma fields_go_app x : forall cur rest,
  ~ In comma x ->
  fields_go cur (x ++ comma :: rest) = (rev cur ++ x) :: fields_go [] rest.
Proof.
  induction x as [|c x IH]; intros cur rest Hx; simpl.
  - rewrite app_nil_r. reflexivity.
  - destruct (c =? comma)%N eqn:E.
    + apply N.eqb_eq in E. exfalso. apply Hx. left. exact E.
    + rewrite IH by (intros H; apply Hx; right; exact H).
      simpl. rewrite <- app_assoc. reflexivity.
Qed.

Lemma fields_go_last x : forall cur,
  ~ In comma x -> fields_go cur x = [rev cur ++ x].
Proof.
  induction x as [|c x IH]; intros cur Hx; simpl.
  - rewrite app_nil_r. reflexivity.
  - destruct (c =? comma)%N eqn:E.
    + apply N.eqb_eq in E. exfalso. apply Hx. left. exact E.
    + rewrite IH by (intros H; apply Hx; right; exact H).
      simpl. rewrite <- app_assoc. reflexivity.
Qed.

(** Splitting on commas undoes joining with commas, for pieces without a
    comma. *)
Lemma fields_join x l :
  (forall y, In y (x :: l) -> ~ In comma y) ->
  fields (join (js ",") (x :: l)) = x :: l.
Proof.
  unfold fields. revert x. induction l as [|y l IH]; intros x H.
  - simpl. rewrite fields_go_last by (apply H; left; reflexivity). reflexivity.
  - change (join (js ",") (x :: y :: l)) with (x ++ comma :: join (js ",") (y :: l)).
    rewrite fields_go_app by (apply H; left; reflexivity).
    rewrite IH by (intros z Hz; apply H; right; exact Hz). reflexivity.
Qed.

End Fields.

(** X17.  Split on commas, the header line of the report gives the ten
    column names, and the line of values gives ten fields, the strings of
    the values of the row in the same order: no number is printed with a
    comma.  The date is a field of its own as long as it has no comma. *)
Theorem report_fields (date : jsstring) (s : State) :
  ~ In comma date ->
  fields (report_headers date s)
    = map js ["date"; "duration_seconds"; "characters"; "words"; "wpm_gross"; "wpm_net";
              "accuracy_percent"; "keystrokes"; "backspaces"; "timer_minutes"]%string /\
  fields (report_values date s)
    = map (fun kv => value_toString (snd kv)) (report_row date s) /\
  List.length (fields (report_values date s)) = 10%nat /\
  downloadReport date s
    = report_headers date s ++ backslash_n ++ report_values date s ++ backslash_n.
Proof.
  intros Hd. split; [vm_compute; reflexivity|].
  assert (Hv : fields (report_values date s)
               = map (fun kv => value_toString (snd kv)) (report_row date s)).
  { unfold report_values, report_row. cbn [map snd value_toString].
    apply fields_join. intros y Hy. cbn [In] in Hy.
    repeat (destruct Hy as [<-|Hy];
            [first [exact Hd
                   | intros Hc; apply toString_alphabet in Hc; unfold comma in Hc; lia]|]).
    destruct Hy. }
  split; [exact Hv|]. split; [rewrite Hv; reflexivity | reflexivity].
Qed.

Lemma report_fields_witness :
  fields (report_values (js "2026-01-01T00:00:00.000Z") hello_session)
  = map js ["2026-01-01T00:00:00.000Z"; "60"; "11"; "2"; "2.2"; "2.2"; "100"; "11"; "0"; "1"]%string.
Proof.
  assert (Hd : ~ In comma (js "2026-01-01T00:00:00.000Z")).
  { intros H. vm_compute in H. intuition discriminate. }
  destruct (report_fields (js "2026-01-01T00:00:00.000Z") hello_session Hd) as (_ & H & _).
  rewrite H. vm_compute. reflexivity.
Defined.

(** X18.  The duration of the report is a whole number of seconds, the
    nearest to the elapsed time, a half going up. *)
Theorem report_duration_rounded (date : jsstring) (s : State) :
  exists d : Z,
    In (js "duration_seconds", VNum (num d)) (report_row date s) /\
    -500 <= activeElapsedMs s - 1000 * d < 500.
Proof.
  exists ((activeElapsedMs s + 500) / 1000). split.
  - unfold report_row. right. left. f_equal. f_equal.
    rewrite div_num by discriminate. unfold Math_round. f_equal.
    set (ms := activeElapsedMs s).
    unfold Qfloor, Qdiv, Qplus, Qmult, Qinv, inject_Z. cbn [Qnum Qden].
    change (Z.pos (1 * 1000 * 2)) with (1000 * 2).
    replace (ms * 1 * 2 + 1 * Z.pos (1 * 1000)) with ((ms + 500) * 2)
      by (change (Z.pos (1 * 1000)) with 1000; lia).
    apply Z.div_mul_cancel_r; lia.
  - pose proof (Z.div_mod (activeElapsedMs s + 500) 1000 ltac:(lia)) as H.
    pose proof (Z.mod_pos_bound (activeElapsedMs s + 500) 1000 ltac:(lia)) as Hm.
    lia.
Qed.

Section Rounding.

Local Open Scope Q_scope.

(** Two decimals of a rational between 0 and 100. *)
Lemma toFixed2_percent (q : Q) :
  0 <= q <= 100 ->
  toFixed2 (Fin q) = Fin (inject_Z (Qfloor (q * 100 + (1 # 2))) / 100) /\
  (0 <= Qfloor (q * 100 + (1 # 2)) <= 10000)%Z.
Proof.
  intros [H0 H100]. split.
  - unfold toFixed2.
    assert (Hbig : Qle_bool (inject_Z (10 ^ 21)) (Qabs q) = false).
    { destruct (Qle_bool (inject_Z (10 ^ 21)) (Qabs q)) eqn:E; [|reflexivity].
      apply Qle_bool_iff in E. rewrite (Qabs_pos q H0) in E.
      exfalso. apply (Qle_not_lt _ _ E).
      apply Qle_lt_trans with 100; [exact H100 | reflexivity]. }
    rewrite Hbig. unfold centi.
    assert (Hneg : Qis_neg q = false).
    { unfold Qis_neg. apply Z.ltb_ge. unfold Qle in H0. simpl in H0. lia. }
    rewrite Hneg. reflexivity.
  - split.
    + change 0%Z with (Qfloor 0). apply Qfloor_resp_le.
      apply Qle_trans with (0 * 100 + (1 # 2)); [discriminate|].
      apply Qplus_le_l. apply Qmult_le_compat_r; [exact H0 | discriminate].
    + change 10000%Z with (Qfloor (100 * 100 + (1 # 2))). apply Qfloor_resp_le.
      apply Qplus_le_l. apply Qmult_le_compat_r; [exact H100 | discriminate].
Qed.

End Rounding.

(** X19.  The accuracy of the report is a whole number of hundredths
    between 0 and 100, the nearest to the accuracy that [stats] returns, a
    half going up. *)
Theorem report_accuracy_rounded (date : jsstring) (s : State) :
  exists (q : Q) (c : Z),
    accuracy (stats s) = Fin q /\
    In (js "accuracy_percent", VNum (Fin (inject_Z c / 100))) (report_row date s) /\
    0 <= c <= 10000 /\
    (inject_Z c <= q * 100 + (1 # 2) < inject_Z c + 1)%Q.
Proof.
  destruct (accuracy_raw s) as (a & Ha & _).
  destruct (clamp_spec a) as (q & Hq & _ & Hr).
  assert (Hacc : accuracy (stats s) = Fin q).
  { unfold stats. cbv beta zeta. cbn [accuracy]. rewrite Ha. exact Hq. }
  destruct (toFixed2_percent q Hr) as (Hf & Hc).
  exists q, (Qfloor (q * 100 + (1 # 2))).
  split; [exact Hacc|]. split.
  - unfold report_row. do 6 right. left. rewrite Hacc, Hf. reflexivity.
  - split; [exact Hc|]. split.
    + apply Qfloor_le.
    + rewrite <- (inject_Z_plus _ 1). apply Qlt_floor.
Qed.

(** X20.  Resuming does not make the elapsed time jump: read at the time
    of the resume it is what it was, and from then on it grows with the
    clock. *)
Theorem resume_continues_elapsed (t1 t : Z) (s : State) :
  isRunning s = false -> t1 <> 0 ->
  getActiveElapsedMs t (pauseResume t1 s) = getActiveElapsedMs t1 s + (t - t1).
Proof.
  intros Hr Ht. unfold getActiveElapsedMs, activeElapsedMs, pauseResume.
  rewrite Hr. simpl.
  assert (E : (t1 =? 0) = false) by (apply Z.eqb_neq; exact Ht).
  destruct (is_null (startedAt s)); simpl; rewrite Hr, E; simpl; lia.
Qed.

Lemma resume_continues_elapsed_witness :
  getActiveElapsedMs 7000 (pauseResume 2000 paused_session)
  = getActiveElapsedMs 2000 paused_session + (7000 - 2000).
Proof.
  apply (resume_continues_elapsed 2000 7000 paused_session); [reflexivity | lia].
Defined.
